(** * stopwatch: a shallow embedding of [stopwatch.h], [stopwatchmsec.h]
      and [stopwatchmicro.h]

    The header defines a class template [basic_stopwatch<T>] over a base
    timer [T], the base timer [TimerBaseChrono<clock_, resolution>], and two
    instantiations: [Stopwatch] (milliseconds) and [Stopwatchmicro]
    (microseconds).

    The member functions mutate the object, read the clock and write to an
    output stream.  They are embedded as computations of a small state monad
    whose state holds the object ([this]) and the part of the outside world
    the code touches: the number of clock readings taken so far and the
    sequence of lines written to output streams.  The readings of the clock
    are an environment parameter [now_at]: the k-th call of [clock_::now()]
    returns [now_at c k]. *)

From Stdlib Require Import ZArith List String Ascii Bool Lia.
From Stdlib Require Import Decimal DecimalString DecimalFacts DecimalN DecimalPos.
Import ListNotations.

Open Scope Z_scope.
Open Scope string_scope.

(** ** Machine integers *)

(** [std::chrono::system_clock::rep] is a signed 64-bit integer and
    [unsigned long] has 64 bits (libstdc++ on an LP64 target, the platform on
    which [Stopwatchmicro] compiles: [m_start] is declared as a
    [system_clock::time_point] and is assigned [clock_::now()]). *)

Definition ulong_bits : Z := 64.

(** Two's-complement reduction of a signed 64-bit result.  Signed overflow is
    undefined in C++; the theorems whose conclusion depends on the value of a
    difference assume that it is representable. *)
Definition wrap_i64 (z : Z) : Z := (z + 2 ^ 63) mod 2 ^ 64 - 2 ^ 63.

(** The cast [(unsigned long) x]. *)
Definition to_ulong (z : Z) : Z := z mod 2 ^ ulong_bits.

Definition tick_t : Type := Z.

(** ** Clocks, time points and resolutions *)

(** A time point is the count of clock periods (nanoseconds) since the epoch. *)
Definition time_point : Type := Z.

(** [clock_::time_point::min()] *)
Definition time_point_min : time_point := - 2 ^ 63.

Inductive Clock : Type := system_clock | steady_clock.

(** libstdc++ declares [high_resolution_clock] as an alias of [system_clock]. *)
Definition high_resolution_clock : Clock := system_clock.

Inductive Resolution : Type := milliseconds | microseconds.

(** Number of clock periods (nanoseconds) in one unit of the resolution. *)
Definition periods_per_unit (r : Resolution) : Z :=
  match r with
  | milliseconds => 1000000
  | microseconds => 1000
  end.

(** [std::chrono::duration_cast<resolution>(d).count()]: integer division,
    which in C++ truncates toward zero. *)
Definition duration_cast (r : Resolution) (d : Z) : Z :=
  Z.quot d (periods_per_unit r).

(** The template arguments of [TimerBaseChrono]. *)
Record TimerBaseChrono : Type := mkTimerBaseChrono {
  clock_ : Clock;
  resolution : Resolution
}.

(** [stopwatchmsec.h] and [stopwatchmicro.h] *)
Definition Stopwatch : TimerBaseChrono :=
  mkTimerBaseChrono system_clock milliseconds.
Definition Stopwatchmicro : TimerBaseChrono :=
  mkTimerBaseChrono high_resolution_clock microseconds.

(** ** Strings and streams *)

(** A [char const*] is [None] for [nullptr] and otherwise [Some s] with [s]
    the characters before the terminating NUL. *)
Definition c_string : Type := option string.

(** The test [p && p[0]]. *)
Definition nonempty (p : c_string) : bool :=
  match p with
  | Some (String _ _) => true
  | _ => false
  end.

(** The characters a non-null pointer points to. *)
Definition chars (p : c_string) : string :=
  match p with
  | Some s => s
  | None => EmptyString
  end.

(** [stream << n] for an [unsigned long] under the default formatting flags:
    the decimal digits of [n]. *)
Definition show_ulong (n : tick_t) : string :=
  NilZero.string_of_uint (N.to_uint (Z.to_N n)).

(** Reads a string of decimal digits back; [None] when some character is not
    a digit. *)
Definition read_ulong (s : string) : option Z :=
  match NilZero.uint_of_string s with
  | Some d => Some (Z.of_N (N.of_uint d))
  | None => None
  end.

Definition is_digit (c : ascii) : bool :=
  let n := nat_of_ascii c in (48 <=? n)%nat && (n <=? 57)%nat.

Fixpoint all_digits (s : string) : bool :=
  match s with
  | EmptyString => true
  | String c s' => is_digit c && all_digits s'
  end.

Inductive ostream : Type := cout | ostream_ref (id : nat).

(** ** The object and the world *)

(** [basic_stopwatch<T>]: the member [m_start] of the base class [T] and the
    three members of the derived class. *)
Record basic_stopwatch : Type := mkStopwatch {
  m_start : time_point;
  m_activity : c_string;
  m_lap : tick_t;
  m_log : ostream
}.

(** What the code observes and changes outside the object: how many times
    the clock was read, and every line written ([... << std::endl <<
    std::flush]) with the stream it went to, oldest first. *)
Record World : Type := mkWorld {
  reads : nat;
  written : list (ostream * string)
}.

Record Config : Type := mkConfig {
  this : basic_stopwatch;
  env : World
}.

(** ** The state monad of member functions *)

Definition M (A : Type) : Type := Config -> A * Config.

Definition ret {A} (a : A) : M A := fun c => (a, c).

Definition bind {A B} (m : M A) (k : A -> M B) : M B :=
  fun c => let (a, c') := m c in k a c'.

Declare Scope monad_scope.
Delimit Scope monad_scope with monad.
Notation "x <- m ;; k" := (bind m (fun x => k))
  (at level 61, m at next level, right associativity) : monad_scope.
Notation "m ;;; k" := (bind m (fun _ => k))
  (at level 61, right associativity) : monad_scope.
Open Scope monad_scope.

Definition get {A} (f : basic_stopwatch -> A) : M A :=
  fun c => (f (this c), c).

Definition set_m_start (t : time_point) : M unit :=
  fun c =>
    let o := this c in
    (tt, mkConfig (mkStopwatch t (m_activity o) (m_lap o) (m_log o)) (env c)).

Definition set_m_lap (n : tick_t) : M unit :=
  fun c =>
    let o := this c in
    (tt, mkConfig (mkStopwatch (m_start o) (m_activity o) n (m_log o)) (env c)).

(** [m_log << line << std::endl << std::flush] *)
Definition write_line (line : string) : M unit :=
  fun c =>
    let w := env c in
    (tt, mkConfig (this c)
           (mkWorld (reads w) (written w ++ [(m_log (this c), line)])%list)).

Definition when (b : bool) (m : M unit) : M unit :=
  if b then m else ret tt.

Section Program.

(** The readings of each clock, in the order in which they are asked for. *)
Variable now_at : Clock -> nat -> time_point.

(** The template argument [T]. *)
Variable T : TimerBaseChrono.

(** [clock_::now()] *)
Definition now : M time_point :=
  fun c =>
    let w := env c in
    (now_at (clock_ T) (reads w),
     mkConfig (this c) (mkWorld (S (reads w)) (written w))).

(** *** [TimerBaseChrono] *)

Definition BaseTimer_Clear : M unit := set_m_start time_point_min.

Definition BaseTimer_IsStarted : M bool :=
  s <- get m_start ;;
  ret (negb (Z.eqb s time_point_min)).

Definition BaseTimer_Start : M unit :=
  t <- now ;;
  set_m_start t.

Definition BaseTimer_GetMs : M tick_t :=
  b <- BaseTimer_IsStarted ;;
  if b then
    t <- now ;;
    s <- get m_start ;;
    ret (to_ulong (duration_cast (resolution T) (wrap_i64 (t - s))))
  else ret 0.

(** *** [basic_stopwatch] *)

Definition IsStarted : M bool := BaseTimer_IsStarted.

Definition LapGet : M tick_t := get m_lap.

Definition Show (event_name : c_string) : M tick_t :=
  b <- IsStarted ;;
  (if b then
     lap <- BaseTimer_GetMs ;;
     set_m_lap lap ;;;
     when (nonempty event_name)
       (a <- get m_activity ;;
        match a with
        | Some activity =>
            l <- get m_lap ;;
            write_line (activity ++ ": " ++ chars event_name ++ " at "
                          ++ show_ulong l ++ "mS")
        | None => ret tt
        end)
   else
     a <- get m_activity ;;
     match a with
     | Some activity => write_line (activity ++ ": not started")
     | None => ret tt
     end) ;;;
  get m_lap.

Definition Stop (event_name : c_string) : M tick_t :=
  b <- IsStarted ;;
  when b
    (lap <- BaseTimer_GetMs ;;
     set_m_lap lap ;;;
     when (nonempty event_name)
       (a <- get m_activity ;;
        match a with
        | Some activity =>
            l <- get m_lap ;;
            write_line (activity ++ ": " ++ chars event_name ++ " "
                          ++ show_ulong l ++ "mS")
        | None => ret tt
        end)) ;;;
  BaseTimer_Clear ;;;
  get m_lap.

Definition Start (event_name : c_string) : M tick_t :=
  b <- IsStarted ;;
  (if b then
     _ <- Stop event_name ;; ret tt
   else
     when (nonempty event_name)
       (a <- get m_activity ;;
        match a with
        | Some activity => write_line (activity ++ ": " ++ chars event_name)
        | None => ret tt
        end)) ;;;
  BaseTimer_Start ;;;
  get m_lap.

(** The default arguments of the declarations. *)
Definition default_show : c_string := Some "show".
Definition default_start : c_string := Some "start".
Definition default_stop : c_string := Some "stop".

(** *** Constructors and destructor *)

(** A constructor runs its body on the object made by its member
    initialisers; the base-class constructor clears the timer. *)
Definition construct (activity : c_string) (log : ostream) (body : M unit)
    (w : World) : Config :=
  snd (body (mkConfig (mkStopwatch time_point_min activity 0 log) w)).

(** [activity && activity[0] ? activity : nullptr] *)
Definition normalize (activity : c_string) : c_string :=
  if nonempty activity then activity else None.

Definition start_body (start_now : bool) : M unit :=
  when start_now
    (a <- get m_activity ;;
     match a with
     | Some _ => _ <- Start default_start ;; ret tt
     | None => _ <- Start None ;; ret tt
     end).

(** [basic_stopwatch(bool start)] *)
Definition basic_stopwatch_bool (start_now : bool) : World -> Config :=
  construct (Some "Stopwatch") cout
    (when start_now (_ <- Start default_start ;; ret tt)).

(** [basic_stopwatch(char const* activity, bool start)] *)
Definition basic_stopwatch_activity (activity : c_string) (start_now : bool)
  : World -> Config :=
  construct (normalize activity) cout (start_body start_now).

(** [basic_stopwatch(std::ostream& log, char const* activity, bool start)] *)
Definition basic_stopwatch_log (log : ostream) (activity : c_string)
    (start_now : bool) : World -> Config :=
  construct (normalize activity) log (start_body start_now).

(** [~basic_stopwatch()] *)
Definition basic_stopwatch_dtor : M unit :=
  b <- IsStarted ;;
  when b
    (a <- get m_activity ;;
     match a with
     | Some _ => _ <- Stop default_stop ;; ret tt
     | None => _ <- Stop None ;; ret tt
     end).

End Program.

(** ** Observations on configurations *)

(** These functions are not part of the header; they name what the
    theorems say about a configuration before and after a call. *)

(** Whether the clock is marked: the value of [IsStarted()]. *)
Definition started (c : Config) : bool :=
  negb (Z.eqb (m_start (this c)) time_point_min).

(** The value [GetMs()] computes from the next clock reading. *)
Definition elapsed (now_at : Clock -> nat -> time_point) (T : TimerBaseChrono)
    (c : Config) : tick_t :=
  to_ulong (duration_cast (resolution T)
              (wrap_i64 (now_at (clock_ T) (reads (env c)) - m_start (this c)))).

(** The line of a call, if the label and the event name allow one. *)
Definition report (c : Config) (event_name : c_string) (text : string -> string)
  : list (ostream * string) :=
  if nonempty event_name then
    match m_activity (this c) with
    | Some activity => [(m_log (this c), text activity)]
    | None => []
    end
  else [].

(** The object after [m_lap = l]. *)
Definition with_lap (o : basic_stopwatch) (l : tick_t) : basic_stopwatch :=
  mkStopwatch (m_start o) (m_activity o) l (m_log o).

(** The object after [m_start = t]. *)
Definition with_start (o : basic_stopwatch) (t : time_point) : basic_stopwatch :=
  mkStopwatch t (m_activity o) (m_lap o) (m_log o).

(** The world after [n] more clock readings and the lines [ls]. *)
Definition after (w : World) (n : nat) (ls : list (ostream * string)) : World :=
  mkWorld (n + reads w) (written w ++ ls).

(** The part of a configuration that a call's measurement and state
    transition act on: the clock mark, the lap and the number of clock
    readings taken. *)
Definition timing (c : Config) : time_point * tick_t * nat :=
  (m_start (this c), m_lap (this c), reads (env c)).

(** A line of the timer [o]: written to the stream of [o] and beginning
    with its label followed by a colon and a space. *)
Definition line_of (o : basic_stopwatch) (p : ostream * string) : Prop :=
  fst p = m_log o /\
  exists a rest, m_activity o = Some a /\ snd p = (a ++ ": " ++ rest)%string.

(** A value of type [unsigned long]. *)
Definition is_ulong (v : tick_t) : Prop := 0 <= v < 2 ^ ulong_bits.

(** ** Client programs *)

(** The calls a client can make on a timer between construction and
    destruction. *)
Inductive Call : Type :=
| CallShow (event_name : c_string)
| CallStart (event_name : c_string)
| CallStop (event_name : c_string).

Definition call (now_at : Clock -> nat -> time_point) (T : TimerBaseChrono)
    (k : Call) : M tick_t :=
  match k with
  | CallShow e => Show now_at T e
  | CallStart e => Start now_at T e
  | CallStop e => Stop now_at T e
  end.

(** A sequence of calls, with the list of the values they return. *)
Fixpoint calls (now_at : Clock -> nat -> time_point) (T : TimerBaseChrono)
    (ks : list Call) : M (list tick_t) :=
  match ks with
  | [] => ret []
  | k :: ks' =>
      r <- call now_at T k ;;
      rs <- calls now_at T ks' ;;
      ret (r :: rs)
  end.

(** ** Concrete clocks and timers used to exercise the theorems *)

(** A clock that reads 2 s after the epoch at first and advances by 50 ms
    and 250 microseconds between two readings. *)
Definition test_clock (c : Clock) (k : nat) : time_point :=
  2000000000 + 50250000 * Z.of_nat k.

Definition world0 : World := mkWorld 0 [].

(** A labelled [Stopwatch] that was constructed without starting it. *)
Definition stopped_work : Config :=
  basic_stopwatch_activity test_clock Stopwatch (Some "Work") false world0.

(** A labelled [Stopwatch] started by its constructor. *)
Definition running_work : Config :=
  basic_stopwatch_activity test_clock Stopwatch (Some "Work") true world0.

(** An unlabelled [Stopwatch] started by its constructor. *)
Definition running_silent : Config :=
  basic_stopwatch_activity test_clock Stopwatch (Some "") true world0.

(** A labelled [Stopwatchmicro] started by its constructor. *)
Definition running_work_micro : Config :=
  basic_stopwatch_activity test_clock Stopwatchmicro (Some "Work") true world0.

(** The labelled [Stopwatch] after [Stop("done")]: Stopped, with lap 50. *)
Definition stopped_after_lap : Config :=
  snd (Stop test_clock Stopwatch (Some "done") running_work).

(** A clock that reads 2 s after the epoch at first and is [step]
    nanoseconds earlier at every later reading. *)
Definition slipping_clock (step : Z) (c : Clock) (k : nat) : time_point :=
  2000000000 - step * Z.of_nat k.

Definition slipping_work (step : Z) : Config :=
  basic_stopwatch_activity (slipping_clock step) Stopwatch (Some "Work") true
    world0.

(** ** Test runs *)

Example run_header_scenario :
  let c0 := basic_stopwatch_activity test_clock Stopwatch (Some "Work") true world0 in
  let (r1, c1) := Show test_clock Stopwatch (Some "checkpoint") c0 in
  let (r2, c2) := Stop test_clock Stopwatch (Some "done") c1 in
  (r1, r2, written (env c2)) =
  (50, 100, [(cout, "Work: start"); (cout, "Work: checkpoint at 50mS");
             (cout, "Work: done 100mS")]).
Proof. vm_compute. reflexivity. Qed.

(** The block of the header comment: construct, [Show], leave the scope. *)
Example run_raii_block :
  let c0 := basic_stopwatch_activity test_clock Stopwatch (Some "TheThing()")
              true world0 in
  let c1 := snd (Show test_clock Stopwatch (Some "Just after initialized") c0) in
  written (env (snd (basic_stopwatch_dtor test_clock Stopwatch c1))) =
  [(cout, "TheThing(): start");
   (cout, "TheThing(): Just after initialized at 50mS");
   (cout, "TheThing(): stop 100mS")].
Proof. vm_compute. reflexivity. Qed.

(** ** Explicit forms of the member functions *)

Section Facts.

Variable now_at : Clock -> nat -> time_point.
Variable T : TimerBaseChrono.

Lemma IsStarted_eq c : IsStarted c = (started c, c).
Proof. reflexivity. Qed.

Lemma started_true_iff c :
  started c = true <-> m_start (this c) <> time_point_min.
Proof.
  unfold started. rewrite negb_true_iff, Z.eqb_neq. tauto.
Qed.

Lemma started_false_iff c :
  started c = false <-> m_start (this c) = time_point_min.
Proof.
  unfold started. rewrite negb_false_iff, Z.eqb_eq. tauto.
Qed.

Lemma GetMs_eq c :
  BaseTimer_GetMs now_at T c =
  if started c then (elapsed now_at T c, mkConfig (this c) (after (env c) 1 []))
  else (0, c).
Proof.
  unfold BaseTimer_GetMs, BaseTimer_IsStarted, bind, get, ret, now, after, elapsed.
  fold (started c). destruct (started c); [|reflexivity].
  now rewrite List.app_nil_r.
Qed.

Lemma Show_eq e c :
  Show now_at T e c =
  if started c then
    let l := elapsed now_at T c in
    (l, mkConfig (with_lap (this c) l)
          (after (env c) 1
             (report c e (fun a => a ++ ": " ++ chars e ++ " at "
                                     ++ show_ulong l ++ "mS"))))
  else
    (m_lap (this c),
     mkConfig (this c)
       (after (env c) 0
          match m_activity (this c) with
          | Some a => [(m_log (this c), a ++ ": not started")]
          | None => []
          end)).
Proof.
  destruct c as [[s a l g] [n ws]].
  unfold Show, bind. rewrite IsStarted_eq.
  destruct (started _) eqn:R.
  - rewrite GetMs_eq, R. unfold report, when, after; cbn.
    destruct (nonempty e); cbn; [destruct a; cbn|]; now rewrite ?List.app_nil_r.
  - unfold after; cbn. destruct a; cbn; now rewrite ?List.app_nil_r.
Qed.

Lemma Stop_eq e c :
  Stop now_at T e c =
  if started c then
    let l := elapsed now_at T c in
    (l, mkConfig (with_start (with_lap (this c) l) time_point_min)
          (after (env c) 1
             (report c e (fun a => a ++ ": " ++ chars e ++ " "
                                     ++ show_ulong l ++ "mS"))))
  else
    (m_lap (this c), mkConfig (with_start (this c) time_point_min) (env c)).
Proof.
  destruct c as [[s a l g] [n ws]].
  unfold Stop, bind. rewrite IsStarted_eq.
  destruct (started _) eqn:R.
  - unfold when at 1. unfold bind. rewrite GetMs_eq, R.
    unfold report, when, after; cbn.
    destruct (nonempty e); cbn; [destruct a; cbn|]; now rewrite ?List.app_nil_r.
  - reflexivity.
Qed.

Lemma started_with_start o w t :
  started (mkConfig (with_start o t) w) = negb (Z.eqb t time_point_min).
Proof. reflexivity. Qed.

Lemma Start_eq e c :
  Start now_at T e c =
  if started c then
    let l := elapsed now_at T c in
    (l, mkConfig (with_start (with_lap (this c) l)
                    (now_at (clock_ T) (S (reads (env c)))))
          (after (env c) 2
             (report c e (fun a => a ++ ": " ++ chars e ++ " "
                                     ++ show_ulong l ++ "mS"))))
  else
    (m_lap (this c),
     mkConfig (with_start (this c) (now_at (clock_ T) (reads (env c))))
       (after (env c) 1 (report c e (fun a => a ++ ": " ++ chars e)))).
Proof.
  destruct c as [[s a l g] [n ws]].
  unfold Start, bind. rewrite IsStarted_eq.
  destruct (started _) eqn:R.
  - rewrite Stop_eq, R. reflexivity.
  - unfold report, when, after; cbn.
    destruct (nonempty e); cbn; [destruct a; cbn|]; now rewrite ?List.app_nil_r.
Qed.

Lemma dtor_eq c :
  basic_stopwatch_dtor now_at T c =
  if started c then
    (tt, snd (Stop now_at T
                (match m_activity (this c) with
                 | Some _ => default_stop
                 | None => None
                 end) c))
  else (tt, c).
Proof.
  unfold basic_stopwatch_dtor, bind. rewrite IsStarted_eq.
  destruct (started c); [|reflexivity].
  unfold when, get, bind, ret. destruct (m_activity (this c)).
  - now destruct (Stop _ _ _ _).
  - now destruct (Stop _ _ _ _).
Qed.

End Facts.

(** ** Concrete timers *)

Example stopped_work_value :
  stopped_work =
  mkConfig (mkStopwatch time_point_min (Some "Work") 0 cout) (mkWorld 0 []).
Proof. reflexivity. Qed.

Example running_work_value :
  running_work =
  mkConfig (mkStopwatch 2000000000 (Some "Work") 0 cout)
    (mkWorld 1 [(cout, "Work: start")]).
Proof. reflexivity. Qed.

Example running_silent_value :
  running_silent =
  mkConfig (mkStopwatch 2000000000 None 0 cout) (mkWorld 1 []).
Proof. reflexivity. Qed.

(** ** Show, Stop and destruction in the two states *)

(** C5: on a Stopped timer, [Show] returns [m_lap] as it was, leaves the
    object untouched (no measurement, lap neither re-measured nor zeroed),
    does not read the clock, and writes the line "<activity>: not started"
    exactly when the activity label is present. *)
Theorem Show_stopped_not_started
    (now_at : Clock -> nat -> time_point) (T : TimerBaseChrono)
    (e : c_string) (c : Config) :
  m_start (this c) = time_point_min ->
  fst (Show now_at T e c) = m_lap (this c) /\
  this (snd (Show now_at T e c)) = this c /\
  reads (env (snd (Show now_at T e c))) = reads (env c) /\
  written (env (snd (Show now_at T e c))) =
    (written (env c) ++
     match m_activity (this c) with
     | Some a => [(m_log (this c), (a ++ ": not started")%string)]
     | None => []
     end)%list.
Proof.
  intros H. apply started_false_iff in H.
  rewrite Show_eq, H. cbn. auto.
Qed.

Lemma Show_stopped_not_started_witness :
  m_start (this stopped_work) = time_point_min /\
  fst (Show test_clock Stopwatch (Some "peek") stopped_work) = 0 /\
  written (env (snd (Show test_clock Stopwatch (Some "peek") stopped_work))) =
    [(cout, "Work: not started")].
Proof.
  split; [reflexivity|].
  destruct (Show_stopped_not_started test_clock Stopwatch (Some "peek")
              stopped_work eq_refl) as (Hr & _ & _ & Hw).
  split; [exact Hr | exact Hw].
Defined.

(** C6: on a Stopped timer, [Stop] returns [m_lap] as it was and changes
    nothing: no line is written, the clock is not read, [m_lap] keeps its
    value. *)
Theorem Stop_stopped_silent
    (now_at : Clock -> nat -> time_point) (T : TimerBaseChrono)
    (e : c_string) (c : Config) :
  m_start (this c) = time_point_min ->
  Stop now_at T e c = (m_lap (this c), c).
Proof.
  intros H. rewrite Stop_eq.
  rewrite (proj2 (started_false_iff c) H).
  destruct c as [[s a l g] w]. cbn in *. subst s. reflexivity.
Qed.

Lemma Stop_stopped_silent_witness :
  m_start (this stopped_work) = time_point_min /\
  Stop test_clock Stopwatch (Some "done") stopped_work = (0, stopped_work).
Proof.
  split; [reflexivity|].
  exact (Stop_stopped_silent test_clock Stopwatch (Some "done") stopped_work
           eq_refl).
Defined.

(** C7: the destructor of a Running timer does what [Stop()] with the default
    event name "stop" does: it writes the single line
    "<activity>: stop <N>mS" when the label is present and nothing when it is
    absent; the destructor of a Stopped timer changes nothing and writes
    nothing. *)
Theorem dtor_implicit_stop
    (now_at : Clock -> nat -> time_point) (T : TimerBaseChrono) (c : Config) :
  (m_start (this c) <> time_point_min ->
     snd (basic_stopwatch_dtor now_at T c) = snd (Stop now_at T (Some "stop") c) /\
     written (env (snd (basic_stopwatch_dtor now_at T c))) =
       (written (env c) ++
        match m_activity (this c) with
        | Some a =>
            [(m_log (this c),
              (a ++ ": stop "
                 ++ show_ulong (m_lap (this (snd (basic_stopwatch_dtor now_at T c))))
                 ++ "mS")%string)]
        | None => []
        end)%list) /\
  (m_start (this c) = time_point_min ->
     basic_stopwatch_dtor now_at T c = (tt, c)).
Proof.
  split; intros H.
  - apply started_true_iff in H. rewrite dtor_eq, H.
    rewrite !Stop_eq, H. unfold report. cbn.
    destruct (m_activity (this c)); cbn; auto.
  - apply started_false_iff in H. now rewrite dtor_eq, H.
Qed.

Lemma dtor_implicit_stop_witness :
  written (env (snd (basic_stopwatch_dtor test_clock Stopwatch running_work))) =
    [(cout, "Work: start"); (cout, "Work: stop 50mS")] /\
  written (env (snd (basic_stopwatch_dtor test_clock Stopwatch running_silent))) = [] /\
  basic_stopwatch_dtor test_clock Stopwatch stopped_work = (tt, stopped_work).
Proof.
  split; [|split].
  - refine (proj2 (proj1 (dtor_implicit_stop test_clock Stopwatch running_work) _)).
    vm_compute. discriminate.
  - refine (proj2 (proj1 (dtor_implicit_stop test_clock Stopwatch running_silent) _)).
    vm_compute. discriminate.
  - exact (proj2 (dtor_implicit_stop test_clock Stopwatch stopped_work) eq_refl).
Defined.

(** ** Arithmetic of the elapsed time *)

Lemma periods_per_unit_pos r : 0 < periods_per_unit r.
Proof. destruct r; reflexivity. Qed.

Lemma wrap_i64_small z : - 2 ^ 63 <= z < 2 ^ 63 -> wrap_i64 z = z.
Proof.
  intros H. unfold wrap_i64. rewrite Z.mod_small; lia.
Qed.

Lemma to_ulong_range z : 0 <= to_ulong z < 2 ^ 64.
Proof. unfold to_ulong, ulong_bits. apply Z.mod_pos_bound. reflexivity. Qed.

Lemma to_ulong_small z : 0 <= z < 2 ^ 64 -> to_ulong z = z.
Proof. intros H. unfold to_ulong, ulong_bits. now apply Z.mod_small. Qed.

Lemma to_ulong_negative z : - 2 ^ 64 <= z < 0 -> to_ulong z = 2 ^ 64 + z.
Proof.
  intros H. unfold to_ulong, ulong_bits.
  symmetry. apply Z.mod_unique with (q := -1); lia.
Qed.

(** Truncation of a non-negative duration. *)
Lemma duration_cast_nonneg r d :
  0 <= d ->
  duration_cast r d = d / periods_per_unit r /\
  0 <= duration_cast r d <= d /\
  duration_cast r d * periods_per_unit r <= d
    < (duration_cast r d + 1) * periods_per_unit r.
Proof.
  intros Hd. pose proof (periods_per_unit_pos r) as Hu.
  unfold duration_cast. rewrite Z.quot_div_nonneg by lia.
  pose proof (Z.div_mod d (periods_per_unit r) ltac:(lia)) as E.
  pose proof (Z.mod_pos_bound d (periods_per_unit r) Hu) as B.
  pose proof (Z.div_pos d (periods_per_unit r) Hd Hu) as P.
  repeat split; nia.
Qed.

(** Truncation toward zero of a negative duration of at least one unit. *)
Lemma duration_cast_negative r d :
  d <= - periods_per_unit r ->
  duration_cast r d = - ((- d) / periods_per_unit r) /\
  d <= duration_cast r d <= -1.
Proof.
  intros Hd. pose proof (periods_per_unit_pos r) as Hu.
  unfold duration_cast.
  assert (Q : Z.quot d (periods_per_unit r) = - ((- d) / periods_per_unit r)).
  { rewrite <- (Z.opp_involutive d) at 1.
    rewrite Z.quot_opp_l by lia. now rewrite Z.quot_div_nonneg by lia. }
  rewrite Q. split; [reflexivity|].
  pose proof (Z.div_mod (- d) (periods_per_unit r) ltac:(lia)) as E.
  pose proof (Z.mod_pos_bound (- d) (periods_per_unit r) Hu) as B.
  assert (1 <= (- d) / periods_per_unit r).
  { apply Z.div_le_lower_bound; lia. }
  set (q := (- d) / periods_per_unit r) in *.
  assert (q <= periods_per_unit r * q) by nia.
  lia.
Qed.

(** A duration of less than one unit, forward or backward, truncates to 0. *)
Lemma duration_cast_within_unit r d :
  - periods_per_unit r < d < periods_per_unit r -> duration_cast r d = 0.
Proof.
  intros H. unfold duration_cast. apply Z.quot_small_iff; lia.
Qed.

(** ** The base timer *)

(** C8: [GetMs] never changes the object (the mark in particular) and writes
    nothing.  With the mark absent it returns 0 without reading the clock.
    With the mark present and the clock reading [now] not before the mark
    (the duration being representable), it returns the whole number of
    resolution units in [now - mark], rounded down. *)
Theorem GetMs_nondestructive_elapsed
    (now_at : Clock -> nat -> time_point) (T : TimerBaseChrono) (c : Config) :
  this (snd (BaseTimer_GetMs now_at T c)) = this c /\
  written (env (snd (BaseTimer_GetMs now_at T c))) = written (env c) /\
  (m_start (this c) = time_point_min -> BaseTimer_GetMs now_at T c = (0, c)) /\
  (m_start (this c) <> time_point_min ->
   forall d, d = now_at (clock_ T) (reads (env c)) - m_start (this c) ->
   0 <= d < 2 ^ 63 ->
   let r := fst (BaseTimer_GetMs now_at T c) in
   r = d / periods_per_unit (resolution T) /\
   r * periods_per_unit (resolution T) <= d
     < (r + 1) * periods_per_unit (resolution T)).
Proof.
  rewrite GetMs_eq. repeat split.
  - now destruct (started c).
  - destruct (started c); cbn; [apply List.app_nil_r | reflexivity].
  - intros H. now rewrite (proj2 (started_false_iff c) H).
  - rewrite (proj2 (started_true_iff c) H). cbn. unfold elapsed.
    rewrite <- H0, wrap_i64_small by lia.
    destruct (duration_cast_nonneg (resolution T) d) as (E & B & _); [lia|].
    rewrite to_ulong_small by lia. exact E.
  - rewrite (proj2 (started_true_iff c) H). cbn. unfold elapsed.
    rewrite <- H0, wrap_i64_small by lia.
    destruct (duration_cast_nonneg (resolution T) d) as (_ & B & L); [lia|].
    rewrite to_ulong_small by lia. apply L.
  - rewrite (proj2 (started_true_iff c) H). cbn. unfold elapsed.
    rewrite <- H0, wrap_i64_small by lia.
    destruct (duration_cast_nonneg (resolution T) d) as (_ & B & L); [lia|].
    rewrite to_ulong_small by lia. apply L.
Qed.

Lemma GetMs_nondestructive_elapsed_witness :
  fst (BaseTimer_GetMs test_clock Stopwatch running_work) = 50250000 / 1000000 /\
  fst (BaseTimer_GetMs test_clock Stopwatchmicro running_work) = 50250000 / 1000 /\
  BaseTimer_GetMs test_clock Stopwatch stopped_work = (0, stopped_work).
Proof.
  split; [|split].
  - refine (proj1 (proj2 (proj2 (proj2
      (GetMs_nondestructive_elapsed test_clock Stopwatch running_work)))
      _ 50250000 eq_refl _)).
    + vm_compute. discriminate.
    + vm_compute. split; [discriminate | reflexivity].
  - refine (proj1 (proj2 (proj2 (proj2
      (GetMs_nondestructive_elapsed test_clock Stopwatchmicro running_work)))
      _ 50250000 eq_refl _)).
    + vm_compute. discriminate.
    + vm_compute. split; [discriminate | reflexivity].
  - exact (proj1 (proj2 (proj2
      (GetMs_nondestructive_elapsed test_clock Stopwatch stopped_work))) eq_refl).
Defined.

(** C9: [IsStarted()] is true after a [Start] made in the Stopped state
    (the clock reading taken by [Start] being a genuine time point, not the
    value [time_point::min()] that encodes "no mark"), false after a [Stop]
    made in the Running state, and [Show] never changes it. *)
Theorem IsStarted_after_calls
    (now_at : Clock -> nat -> time_point) (T : TimerBaseChrono)
    (e : c_string) (c : Config) :
  (m_start (this c) = time_point_min ->
   now_at (clock_ T) (reads (env c)) <> time_point_min ->
   fst (IsStarted (snd (Start now_at T e c))) = true) /\
  (m_start (this c) <> time_point_min ->
   fst (IsStarted (snd (Stop now_at T e c))) = false) /\
  fst (IsStarted (snd (Show now_at T e c))) = fst (IsStarted c).
Proof.
  rewrite !IsStarted_eq. cbn [fst]. split; [|split].
  - intros H N. rewrite Start_eq, (proj2 (started_false_iff c) H). cbn [snd].
    rewrite started_with_start. now apply negb_true_iff, Z.eqb_neq.
  - intros H. rewrite Stop_eq, (proj2 (started_true_iff c) H). reflexivity.
  - rewrite Show_eq. destruct (started c) eqn:R; cbn [snd]; exact R.
Qed.

Lemma IsStarted_after_calls_witness :
  fst (IsStarted (snd (Start test_clock Stopwatch (Some "go") stopped_work))) = true /\
  fst (IsStarted (snd (Stop test_clock Stopwatch (Some "done") running_work))) = false /\
  fst (IsStarted (snd (Show test_clock Stopwatch (Some "peek") running_work))) = true.
Proof.
  pose proof (IsStarted_after_calls test_clock Stopwatch (Some "go") stopped_work)
    as (A & _ & _).
  pose proof (IsStarted_after_calls test_clock Stopwatch (Some "done") running_work)
    as (_ & B & _).
  pose proof (IsStarted_after_calls test_clock Stopwatch (Some "peek") running_work)
    as (_ & _ & C).
  split; [|split].
  - apply A; [reflexivity | vm_compute; discriminate].
  - apply B. vm_compute. discriminate.
  - exact C.
Defined.

(** ** A clock that is set back *)

(** C10, as stated, fails: with the clock 1 ns before the mark, the signed
    count is -1 ns, [duration_cast] truncates it toward zero, and [GetMs]
    returns 0, not a wrapped value. *)
Lemma GetMs_just_before_mark_is_zero :
  m_start (this (slipping_work 1)) <> time_point_min /\
  slipping_clock 1 (clock_ Stopwatch) (reads (env (slipping_work 1)))
    < m_start (this (slipping_work 1)) /\
  fst (BaseTimer_GetMs (slipping_clock 1) Stopwatch (slipping_work 1)) = 0.
Proof.
  split; [|split]; vm_compute; solve [discriminate | reflexivity].
Qed.

(** C10, amended: when the clock reading is before the mark by at least one
    whole unit of the resolution, the negative count cast to [unsigned long]
    is [2^64 - q], with [q] the whole number of units by which the clock is
    behind: a value of at least [2^63].  [Show] and [Stop] store this value
    into [m_lap], return it, and print it.  When the reading is before the
    mark by less than one unit, the count truncates to 0 and [GetMs]
    returns 0. *)
Theorem GetMs_backwards_clock_wraps
    (now_at : Clock -> nat -> time_point) (T : TimerBaseChrono)
    (e : c_string) (c : Config) (d : Z) :
  m_start (this c) <> time_point_min ->
  d = now_at (clock_ T) (reads (env c)) - m_start (this c) ->
  (- 2 ^ 63 <= d <= - periods_per_unit (resolution T) ->
   let n := 2 ^ 64 - (- d) / periods_per_unit (resolution T) in
   2 ^ 63 <= n < 2 ^ 64 /\
   fst (BaseTimer_GetMs now_at T c) = n /\
   fst (Show now_at T e c) = n /\
   m_lap (this (snd (Show now_at T e c))) = n /\
   fst (Stop now_at T e c) = n /\
   m_lap (this (snd (Stop now_at T e c))) = n /\
   (forall a, m_activity (this c) = Some a -> nonempty e = true ->
      written (env (snd (Show now_at T e c))) =
        (written (env c) ++
         [(m_log (this c),
           (a ++ ": " ++ chars e ++ " at " ++ show_ulong n ++ "mS")%string)])%list /\
      written (env (snd (Stop now_at T e c))) =
        (written (env c) ++
         [(m_log (this c),
           (a ++ ": " ++ chars e ++ " " ++ show_ulong n ++ "mS")%string)])%list)) /\
  (- periods_per_unit (resolution T) < d < 0 ->
   fst (BaseTimer_GetMs now_at T c) = 0).
Proof.
  intros R D.
  pose proof (periods_per_unit_pos (resolution T)) as Hu.
  apply started_true_iff in R.
  split.
  - intros B n.
    destruct (duration_cast_negative (resolution T) d) as (Q & L); [lia|].
    assert (E : elapsed now_at T c = n).
    { unfold elapsed. rewrite <- D, wrap_i64_small by lia.
      rewrite to_ulong_negative by lia. subst n. rewrite Q. lia. }
    assert (N : 2 ^ 63 <= n < 2 ^ 64).
    { subst n. rewrite Q in L. lia. }
    clearbody n.
    rewrite GetMs_eq, Show_eq, Stop_eq, R.
    cbv zeta. rewrite !E.
    cbn [fst snd this env m_lap written with_lap with_start after].
    repeat split; try reflexivity; try apply N.
    + unfold report. now rewrite H0, H.
    + unfold report. now rewrite H0, H.
  - intros B.
    assert (U : periods_per_unit (resolution T) <= 1000000)
      by (destruct (resolution T); cbn; lia).
    rewrite GetMs_eq, R. cbn [fst]. unfold elapsed.
    rewrite <- D, wrap_i64_small by lia.
    rewrite duration_cast_within_unit by lia. reflexivity.
Qed.

Lemma GetMs_backwards_clock_wraps_witness :
  fst (BaseTimer_GetMs (slipping_clock 5000000) Stopwatch (slipping_work 5000000))
    = 18446744073709551611 /\
  written (env (snd (Show (slipping_clock 5000000) Stopwatch (Some "peek")
                       (slipping_work 5000000)))) =
    [(cout, "Work: start"); (cout, "Work: peek at 18446744073709551611mS")] /\
  fst (BaseTimer_GetMs (slipping_clock 999999) Stopwatch (slipping_work 999999))
    = 0.
Proof.
  assert (R : m_start (this (slipping_work 5000000)) <> time_point_min)
    by (vm_compute; discriminate).
  assert (B : - 2 ^ 63 <= -5000000 <= - periods_per_unit (resolution Stopwatch))
    by (vm_compute; split; discriminate).
  destruct (proj1 (GetMs_backwards_clock_wraps (slipping_clock 5000000) Stopwatch
                     (Some "peek") (slipping_work 5000000) (-5000000) R eq_refl) B)
    as (_ & G & _ & _ & _ & _ & W).
  assert (R' : m_start (this (slipping_work 999999)) <> time_point_min)
    by (vm_compute; discriminate).
  assert (B' : - periods_per_unit (resolution Stopwatch) < -999999 < 0)
    by (vm_compute; split; reflexivity).
  split; [|split].
  - etransitivity; [exact G | vm_compute; reflexivity].
  - etransitivity; [exact (proj1 (W "Work" eq_refl eq_refl)) | vm_compute; reflexivity].
  - exact (proj2 (GetMs_backwards_clock_wraps (slipping_clock 999999) Stopwatch
                    None (slipping_work 999999) (-999999) R' eq_refl) B').
Defined.

(** ** The printed tick count and its unit *)

Lemma NilEmpty_string_of_uint_digits d :
  all_digits (NilEmpty.string_of_uint d) = true.
Proof. induction d; cbn; auto. Qed.

Lemma show_ulong_digits n : all_digits (show_ulong n) = true.
Proof.
  unfold show_ulong, NilZero.string_of_uint.
  destruct (N.to_uint (Z.to_N n)) eqn:E;
    try (rewrite <- E; apply NilEmpty_string_of_uint_digits).
  reflexivity.
Qed.

Lemma N_to_uint_nonnil m : N.to_uint m <> Nil.
Proof.
  destruct m; cbn; [discriminate | apply DecimalPos.Unsigned.to_uint_nonnil].
Qed.

Lemma read_show_ulong n : 0 <= n -> read_ulong (show_ulong n) = Some n.
Proof.
  intros H. unfold read_ulong, show_ulong.
  rewrite NilZero.usu by apply N_to_uint_nonnil.
  now rewrite DecimalN.Unsigned.of_to, Z2N.id.
Qed.

Lemma elapsed_range now_at T c : 0 <= elapsed now_at T c < 2 ^ 64.
Proof. apply to_ulong_range. Qed.

(** C4, as stated, fails: the millisecond and the microsecond policy do not
    each have a unit literal of their own.  The literal is written by
    [basic_stopwatch], not by the policy, and both timers print "mS": after
    50.25 ms a [Stopwatch] prints "50mS" and a [Stopwatchmicro] prints
    "50250mS"; no assignment of different literals to the two policies
    describes these lines. *)
Lemma unit_literal_is_not_per_policy :
  written (env (snd (Stop test_clock Stopwatch (Some "done") running_work))) =
    [(cout, "Work: start"); (cout, "Work: done 50mS")] /\
  written (env (snd (Stop test_clock Stopwatchmicro (Some "done")
                       running_work_micro))) =
    [(cout, "Work: start"); (cout, "Work: done 50250mS")] /\
  ~ (exists unit_of : TimerBaseChrono -> string,
       unit_of Stopwatch <> unit_of Stopwatchmicro /\
       written (env (snd (Stop test_clock Stopwatch (Some "done") running_work))) =
         [(cout, "Work: start");
          (cout, "Work: done "
                 ++ show_ulong (fst (Stop test_clock Stopwatch (Some "done")
                                       running_work))
                 ++ unit_of Stopwatch)] /\
       written (env (snd (Stop test_clock Stopwatchmicro (Some "done")
                            running_work_micro))) =
         [(cout, "Work: start");
          (cout, "Work: done "
                 ++ show_ulong (fst (Stop test_clock Stopwatchmicro (Some "done")
                                       running_work_micro))
                 ++ unit_of Stopwatchmicro)]).
Proof.
  split; [reflexivity|]. split; [reflexivity|].
  intros (unit_of & D & A & B).
  apply D.
  remember (unit_of Stopwatch) as u eqn:Eu.
  remember (unit_of Stopwatchmicro) as v eqn:Ev.
  clear Eu Ev D unit_of.
  vm_compute in A. vm_compute in B.
  injection A as A. injection B as B.
  congruence.
Qed.

(** C4, amended: every line that reports a duration ends in the literal
    "mS", whatever the clock policy.  The number before it is the value the
    call returns, which lies in [0, 2^64); it is printed with decimal digits
    only (no sign, no fraction) and reads back as that value. *)
Theorem duration_lines_number_and_unit
    (now_at : Clock -> nat -> time_point) (T : TimerBaseChrono)
    (e : c_string) (a : string) (c : Config) :
  m_start (this c) <> time_point_min ->
  m_activity (this c) = Some a ->
  nonempty e = true ->
  (let n := fst (Show now_at T e c) in
   written (env (snd (Show now_at T e c))) =
     (written (env c) ++
      [(m_log (this c),
        (a ++ ": " ++ chars e ++ " at " ++ show_ulong n ++ "mS")%string)])%list /\
   0 <= n < 2 ^ 64 /\
   all_digits (show_ulong n) = true /\
   read_ulong (show_ulong n) = Some n) /\
  (let n := fst (Stop now_at T e c) in
   written (env (snd (Stop now_at T e c))) =
     (written (env c) ++
      [(m_log (this c),
        (a ++ ": " ++ chars e ++ " " ++ show_ulong n ++ "mS")%string)])%list /\
   0 <= n < 2 ^ 64 /\
   all_digits (show_ulong n) = true /\
   read_ulong (show_ulong n) = Some n) /\
  (let n := fst (Start now_at T e c) in
   written (env (snd (Start now_at T e c))) =
     (written (env c) ++
      [(m_log (this c),
        (a ++ ": " ++ chars e ++ " " ++ show_ulong n ++ "mS")%string)])%list /\
   0 <= n < 2 ^ 64 /\
   all_digits (show_ulong n) = true /\
   read_ulong (show_ulong n) = Some n).
Proof.
  intros R A E. apply started_true_iff in R.
  pose proof (elapsed_range now_at T c) as B.
  rewrite Show_eq, Stop_eq, Start_eq, R. cbv zeta.
  cbn [fst snd env written after]. unfold report. rewrite E, A.
  repeat split; try apply B; try apply show_ulong_digits;
    apply read_show_ulong, B.
Qed.

Lemma duration_lines_number_and_unit_witness :
  written (env (snd (Show test_clock Stopwatchmicro (Some "peek")
                       running_work_micro))) =
    [(cout, "Work: start"); (cout, "Work: peek at 50250mS")] /\
  written (env (snd (Stop test_clock Stopwatch (Some "done") running_work))) =
    [(cout, "Work: start"); (cout, "Work: done 50mS")].
Proof.
  split.
  - etransitivity;
      [ refine (proj1 (proj1 (duration_lines_number_and_unit test_clock
                 Stopwatchmicro (Some "peek") "Work" running_work_micro
                 _ eq_refl eq_refl)));
        vm_compute; discriminate
      | vm_compute; reflexivity ].
  - etransitivity;
      [ refine (proj1 (proj1 (proj2 (duration_lines_number_and_unit test_clock
                 Stopwatch (Some "done") "Work" running_work
                 _ eq_refl eq_refl))));
        vm_compute; discriminate
      | vm_compute; reflexivity ].
Defined.

(** ** What a call does besides writing *)

Section Timing.

Variable now_at : Clock -> nat -> time_point.
Variable T : TimerBaseChrono.

Lemma timing_started c c' : timing c = timing c' -> started c = started c'.
Proof. unfold timing, started. intros [= -> _ _]. reflexivity. Qed.

Lemma timing_elapsed c c' :
  timing c = timing c' -> elapsed now_at T c = elapsed now_at T c'.
Proof. unfold timing, elapsed. intros [= -> _ ->]. reflexivity. Qed.

(** The return value and the timing of a call depend neither on the event
    name, nor on the label, nor on what was written before. *)
Lemma Show_timing e e' c c' :
  timing c = timing c' ->
  fst (Show now_at T e c) = fst (Show now_at T e' c') /\
  timing (snd (Show now_at T e c)) = timing (snd (Show now_at T e' c')).
Proof.
  intros H. rewrite !Show_eq, (timing_started _ _ H), (timing_elapsed _ _ H).
  unfold timing in *. injection H as Hs Hl Hr.
  destruct (started c'); cbv zeta; cbn [fst snd this env with_lap after
    m_start m_lap reads]; rewrite ?Hs, ?Hl, ?Hr; auto.
Qed.

Lemma Stop_timing e e' c c' :
  timing c = timing c' ->
  fst (Stop now_at T e c) = fst (Stop now_at T e' c') /\
  timing (snd (Stop now_at T e c)) = timing (snd (Stop now_at T e' c')).
Proof.
  intros H. rewrite !Stop_eq, (timing_started _ _ H), (timing_elapsed _ _ H).
  unfold timing in *. injection H as Hs Hl Hr.
  destruct (started c'); cbv zeta; cbn [fst snd this env with_lap with_start
    after m_start m_lap reads]; rewrite ?Hs, ?Hl, ?Hr; auto.
Qed.

Lemma Start_timing e e' c c' :
  timing c = timing c' ->
  fst (Start now_at T e c) = fst (Start now_at T e' c') /\
  timing (snd (Start now_at T e c)) = timing (snd (Start now_at T e' c')).
Proof.
  intros H. rewrite !Start_eq, (timing_started _ _ H), (timing_elapsed _ _ H).
  unfold timing in *. injection H as Hs Hl Hr.
  destruct (started c'); cbv zeta; cbn [fst snd this env with_lap with_start
    after m_start m_lap reads]; rewrite ?Hs, ?Hl, ?Hr; auto.
Qed.

(** No call changes the label or the stream of the object. *)
Lemma Show_label e c :
  m_activity (this (snd (Show now_at T e c))) = m_activity (this c) /\
  m_log (this (snd (Show now_at T e c))) = m_log (this c).
Proof. rewrite Show_eq. destruct (started c); auto. Qed.

Lemma Stop_label e c :
  m_activity (this (snd (Stop now_at T e c))) = m_activity (this c) /\
  m_log (this (snd (Stop now_at T e c))) = m_log (this c).
Proof. rewrite Stop_eq. destruct (started c); auto. Qed.

Lemma Start_label e c :
  m_activity (this (snd (Start now_at T e c))) = m_activity (this c) /\
  m_log (this (snd (Start now_at T e c))) = m_log (this c).
Proof. rewrite Start_eq. destruct (started c); auto. Qed.

(** What each call writes. *)
Lemma Show_written e c :
  written (env (snd (Show now_at T e c))) =
  (written (env c) ++
   if started c then
     report c e (fun a => a ++ ": " ++ chars e ++ " at "
                            ++ show_ulong (elapsed now_at T c) ++ "mS")%string
   else
     match m_activity (this c) with
     | Some a => [(m_log (this c), (a ++ ": not started")%string)]
     | None => []
     end)%list.
Proof. rewrite Show_eq. destruct (started c); reflexivity. Qed.

Lemma Stop_written e c :
  written (env (snd (Stop now_at T e c))) =
  (written (env c) ++
   if started c then
     report c e (fun a => a ++ ": " ++ chars e ++ " "
                            ++ show_ulong (elapsed now_at T c) ++ "mS")%string
   else [])%list.
Proof.
  rewrite Stop_eq. destruct (started c); cbn [snd env written after];
    now rewrite ?List.app_nil_r.
Qed.

Lemma Start_written e c :
  written (env (snd (Start now_at T e c))) =
  (written (env c) ++
   if started c then
     report c e (fun a => a ++ ": " ++ chars e ++ " "
                            ++ show_ulong (elapsed now_at T c) ++ "mS")%string
   else report c e (fun a => a ++ ": " ++ chars e)%string)%list.
Proof. rewrite Start_eq. destruct (started c); reflexivity. Qed.

Lemma report_no_event c e text : nonempty e = false -> report c e text = [].
Proof. unfold report. now intros ->. Qed.

Lemma report_no_label c e text :
  m_activity (this c) = None -> report c e text = [].
Proof. unfold report. intros ->. now destruct (nonempty e). Qed.

End Timing.

(** ** Suppression by the event name *)

(** C1, as stated, fails for [Show] in the Stopped state: the "not started"
    line does not depend on the event name, so [Show(nullptr)] and
    [Show("")] on a stopped labelled timer write it. *)
Lemma Show_without_event_on_stopped_timer_writes :
  nonempty None = false /\
  nonempty (Some "") = false /\
  m_start (this stopped_work) = time_point_min /\
  written (env stopped_work) = [] /\
  written (env (snd (Show test_clock Stopwatch None stopped_work))) =
    [(cout, "Work: not started")] /\
  written (env (snd (Show test_clock Stopwatch (Some "") stopped_work))) =
    [(cout, "Work: not started")].
Proof. repeat split. Qed.

(** C1, amended: with an empty or absent event name, [Stop] and [Start]
    write nothing in either state and [Show] writes nothing on a Running
    timer; [Show] on a Stopped timer writes "<activity>: not started" when
    the label is present, whatever the event name.  The measurement and the
    state transition of the call still take place.  On a Running timer the
    three calls read the clock, store the elapsed ticks [n] in [m_lap] and
    return them; [Show] keeps the mark, [Stop] clears it, [Start] replaces
    it by the next clock reading.  On a Stopped timer the lap is kept and
    returned and the clock is not read for a measurement; [Show] and [Stop]
    leave the timer unmarked, [Start] marks it with the clock reading.
    These are also the return value, mark, lap and clock readings of the
    same call with any other event name [e']. *)
Theorem empty_event_name_suppresses_line
    (now_at : Clock -> nat -> time_point) (T : TimerBaseChrono)
    (e e' : c_string) (c : Config) :
  nonempty e = false ->
  written (env (snd (Stop now_at T e c))) = written (env c) /\
  written (env (snd (Start now_at T e c))) = written (env c) /\
  (m_start (this c) <> time_point_min ->
   written (env (snd (Show now_at T e c))) = written (env c)) /\
  (m_start (this c) = time_point_min ->
   written (env (snd (Show now_at T e c))) =
     (written (env c) ++
      match m_activity (this c) with
      | Some a => [(m_log (this c), (a ++ ": not started")%string)]
      | None => []
      end)%list) /\
  (fst (Show now_at T e c) = fst (Show now_at T e' c) /\
   timing (snd (Show now_at T e c)) = timing (snd (Show now_at T e' c))) /\
  (fst (Start now_at T e c) = fst (Start now_at T e' c) /\
   timing (snd (Start now_at T e c)) = timing (snd (Start now_at T e' c))) /\
  (fst (Stop now_at T e c) = fst (Stop now_at T e' c) /\
   timing (snd (Stop now_at T e c)) = timing (snd (Stop now_at T e' c))) /\
  (m_start (this c) <> time_point_min ->
   let n := to_ulong (duration_cast (resolution T)
                        (wrap_i64 (now_at (clock_ T) (reads (env c))
                                   - m_start (this c)))) in
   (fst (Show now_at T e c) = n /\
    m_lap (this (snd (Show now_at T e c))) = n /\
    m_start (this (snd (Show now_at T e c))) = m_start (this c) /\
    reads (env (snd (Show now_at T e c))) = S (reads (env c))) /\
   (fst (Stop now_at T e c) = n /\
    m_lap (this (snd (Stop now_at T e c))) = n /\
    m_start (this (snd (Stop now_at T e c))) = time_point_min /\
    reads (env (snd (Stop now_at T e c))) = S (reads (env c))) /\
   (fst (Start now_at T e c) = n /\
    m_lap (this (snd (Start now_at T e c))) = n /\
    m_start (this (snd (Start now_at T e c))) =
      now_at (clock_ T) (S (reads (env c))) /\
    reads (env (snd (Start now_at T e c))) = S (S (reads (env c))))) /\
  (m_start (this c) = time_point_min ->
   (fst (Show now_at T e c) = m_lap (this c) /\
    m_lap (this (snd (Show now_at T e c))) = m_lap (this c) /\
    m_start (this (snd (Show now_at T e c))) = time_point_min /\
    reads (env (snd (Show now_at T e c))) = reads (env c)) /\
   (fst (Stop now_at T e c) = m_lap (this c) /\
    m_lap (this (snd (Stop now_at T e c))) = m_lap (this c) /\
    m_start (this (snd (Stop now_at T e c))) = time_point_min /\
    reads (env (snd (Stop now_at T e c))) = reads (env c)) /\
   (fst (Start now_at T e c) = m_lap (this c) /\
    m_lap (this (snd (Start now_at T e c))) = m_lap (this c) /\
    m_start (this (snd (Start now_at T e c))) =
      now_at (clock_ T) (reads (env c)) /\
    reads (env (snd (Start now_at T e c))) = S (reads (env c)))).
Proof.
  intros E.
  rewrite Stop_written, Start_written, Show_written, !report_no_event by exact E.
  split; [|split; [|split; [|split; [|split; [|split; [|split; [|split]]]]]]].
  - destruct (started c); apply List.app_nil_r.
  - destruct (started c); apply List.app_nil_r.
  - intros R. apply started_true_iff in R. rewrite R. apply List.app_nil_r.
  - intros R. apply started_false_iff in R. now rewrite R.
  - now apply Show_timing.
  - now apply Start_timing.
  - now apply Stop_timing.
  - intros R. apply started_true_iff in R.
    rewrite Show_eq, Stop_eq, Start_eq, R. cbv zeta.
    fold (elapsed now_at T c).
    cbn [fst snd this env m_lap m_start reads with_lap with_start after Nat.add].
    repeat split.
  - intros R. pose proof R as R'. apply started_false_iff in R.
    rewrite Show_eq, Stop_eq, Start_eq, R.
    cbn [fst snd this env m_lap m_start reads with_lap with_start after Nat.add].
    repeat split. exact R'.
Qed.

Lemma empty_event_name_suppresses_line_witness :
  nonempty (Some "") = false /\
  written (env (snd (Stop test_clock Stopwatch (Some "") running_work))) =
    written (env running_work) /\
  fst (Stop test_clock Stopwatch (Some "") running_work) =
    fst (Stop test_clock Stopwatch (Some "done") running_work) /\
  m_lap (this (snd (Stop test_clock Stopwatch (Some "") running_work))) = 50 /\
  m_start (this (snd (Stop test_clock Stopwatch (Some "") running_work))) =
    time_point_min /\
  m_start (this (snd (Start test_clock Stopwatch None stopped_work))) =
    2000000000.
Proof.
  split; [reflexivity|].
  pose proof (empty_event_name_suppresses_line test_clock Stopwatch (Some "")
                (Some "done") running_work eq_refl)
    as (W & _ & _ & _ & _ & _ & (V & _) & Run & _).
  pose proof (empty_event_name_suppresses_line test_clock Stopwatch None
                (Some "go") stopped_work eq_refl)
    as (_ & _ & _ & _ & _ & _ & _ & _ & Stopped).
  assert (R : m_start (this running_work) <> time_point_min)
    by (vm_compute; discriminate).
  destruct (Run R) as (_ & (_ & L & M & _) & _).
  destruct (Stopped eq_refl) as (_ & _ & (_ & _ & S0 & _)).
  split; [exact W|]. split; [exact V|].
  split; [etransitivity; [exact L | vm_compute; reflexivity]|].
  split; [exact M | exact S0].
Defined.

(** ** Start on a Running timer *)

(** C2, as stated, fails for a labelled timer: [Start()] has the default
    event name "start", so the second call of the sequence
    [Stop(e); Start()] finds the timer Stopped and writes
    "<activity>: start", a line that [Start(e)] does not write. *)
Lemma Start_running_differs_from_Stop_then_default_Start :
  m_start (this running_work) <> time_point_min /\
  written (env (snd (Start test_clock Stopwatch (Some "lap") running_work))) =
    [(cout, "Work: start"); (cout, "Work: lap 50mS")] /\
  written (env (snd ((Stop test_clock Stopwatch (Some "lap") ;;;
                      Start test_clock Stopwatch default_start) running_work))) =
    [(cout, "Work: start"); (cout, "Work: lap 50mS"); (cout, "Work: start")] /\
  Start test_clock Stopwatch (Some "lap") running_work <>
  (Stop test_clock Stopwatch (Some "lap") ;;;
   Start test_clock Stopwatch default_start) running_work.
Proof.
  split; [vm_compute; discriminate|].
  split; [reflexivity|]. split; [reflexivity|].
  vm_compute. discriminate.
Qed.

(** C2, amended: on a Running timer, [Start(e)] is the sequence [Stop(e)]
    followed by [Start] with an empty or absent event name, that is, by
    re-marking the clock: same return value (the duration recorded by the
    stop), same lines, same final state, the mark being the clock reading
    taken after the stop.  The sequence [Stop(e); Start()] with the default
    event name agrees with it on an unlabelled timer; on a labelled one it
    returns the same value and leaves the same object, and writes one more
    line, "<activity>: start". *)
Theorem Start_running_is_Stop_then_remark
    (now_at : Clock -> nat -> time_point) (T : TimerBaseChrono)
    (e e0 : c_string) (c : Config) :
  m_start (this c) <> time_point_min ->
  nonempty e0 = false ->
  Start now_at T e c = (Stop now_at T e ;;; Start now_at T e0) c /\
  Start now_at T e c =
    (Stop now_at T e ;;; BaseTimer_Start now_at T ;;; LapGet) c /\
  fst (Start now_at T e c) = fst (Stop now_at T e c) /\
  written (env (snd (Start now_at T e c))) =
    written (env (snd (Stop now_at T e c))) /\
  m_start (this (snd (Start now_at T e c))) =
    now_at (clock_ T) (S (reads (env c))) /\
  (now_at (clock_ T) (S (reads (env c))) <> time_point_min ->
   fst (IsStarted (snd (Start now_at T e c))) = true) /\
  (m_activity (this c) = None ->
   Start now_at T e c =
     (Stop now_at T e ;;; Start now_at T default_start) c) /\
  (forall a, m_activity (this c) = Some a ->
   let r := (Stop now_at T e ;;; Start now_at T default_start) c in
   fst r = fst (Start now_at T e c) /\
   this (snd r) = this (snd (Start now_at T e c)) /\
   reads (env (snd r)) = reads (env (snd (Start now_at T e c))) /\
   written (env (snd r)) =
     (written (env (snd (Start now_at T e c))) ++
      [(m_log (this c), (a ++ ": start")%string)])%list).
Proof.
  intros R E0. apply started_true_iff in R.
  assert (S0 : forall e1 o w,
    Start now_at T e1 (mkConfig (with_start o time_point_min) w) =
    (m_lap o,
     mkConfig (with_start o (now_at (clock_ T) (reads w)))
       (after w 1
          (report (mkConfig (with_start o time_point_min) w) e1
             (fun a => a ++ ": " ++ chars e1)%string)))).
  { intros e1 o w. rewrite Start_eq, started_with_start, Z.eqb_refl.
    reflexivity. }
  rewrite IsStarted_eq.
  unfold bind, BaseTimer_Start, LapGet, now, set_m_start, get.
  rewrite Stop_eq, R. cbv beta iota zeta.
  rewrite Start_eq, R, !S0. cbv zeta.
  rewrite (report_no_event _ e0) by exact E0.
  unfold after, with_start, with_lap.
  cbn [fst snd this env m_start m_lap m_activity m_log reads written Nat.add].
  rewrite List.app_nil_r.
  split; [reflexivity|].
  split; [reflexivity|].
  split; [reflexivity|].
  split; [reflexivity|].
  split; [reflexivity|].
  split.
  { intros N. unfold started. cbn [this m_start].
    now apply negb_true_iff, Z.eqb_neq. }
  split.
  - intros A. rewrite (report_no_label _ default_start) by exact A.
    now rewrite List.app_nil_r.
  - intros a A. unfold report at 2.
    cbn [this m_activity m_log nonempty default_start chars].
    rewrite A. auto.
Qed.

Lemma Start_running_is_Stop_then_remark_witness :
  Start test_clock Stopwatch (Some "lap") running_work =
    (Stop test_clock Stopwatch (Some "lap") ;;;
     Start test_clock Stopwatch None) running_work /\
  written (env (snd (Start test_clock Stopwatch (Some "lap") running_work))) =
    [(cout, "Work: start"); (cout, "Work: lap 50mS")].
Proof.
  assert (R : m_start (this running_work) <> time_point_min)
    by (vm_compute; discriminate).
  pose proof (Start_running_is_Stop_then_remark test_clock Stopwatch
                (Some "lap") None running_work R eq_refl) as (A & _).
  split; [exact A | reflexivity].
Defined.

(** ** A timer without label *)

Section Silent.

Variable now_at : Clock -> nat -> time_point.
Variable T : TimerBaseChrono.

Lemma call_timing k c c' :
  timing c = timing c' ->
  fst (call now_at T k c) = fst (call now_at T k c') /\
  timing (snd (call now_at T k c)) = timing (snd (call now_at T k c')).
Proof.
  destruct k; cbn [call];
    [apply Show_timing | apply Start_timing | apply Stop_timing].
Qed.

Lemma call_silent k c :
  m_activity (this c) = None ->
  m_activity (this (snd (call now_at T k c))) = None /\
  written (env (snd (call now_at T k c))) = written (env c).
Proof.
  intros A. destruct k as [e|e|e]; cbn [call].
  - rewrite (proj1 (Show_label now_at T e c)), Show_written, A.
    rewrite report_no_label by exact A.
    split; [reflexivity|]. destruct (started c); apply List.app_nil_r.
  - rewrite (proj1 (Start_label now_at T e c)), Start_written.
    rewrite !report_no_label by exact A.
    split; [exact A|]. destruct (started c); apply List.app_nil_r.
  - rewrite (proj1 (Stop_label now_at T e c)), Stop_written.
    rewrite !report_no_label by exact A.
    split; [exact A|]. destruct (started c); apply List.app_nil_r.
Qed.

Lemma calls_cons k ks c :
  calls now_at T (k :: ks) c =
  (fst (call now_at T k c) :: fst (calls now_at T ks (snd (call now_at T k c))),
   snd (calls now_at T ks (snd (call now_at T k c)))).
Proof.
  cbn [calls]. unfold bind, ret.
  destruct (call now_at T k c) as [r c1]. cbn [fst snd].
  now destruct (calls now_at T ks c1).
Qed.

Lemma calls_timing ks : forall c c',
  timing c = timing c' ->
  fst (calls now_at T ks c) = fst (calls now_at T ks c') /\
  timing (snd (calls now_at T ks c)) = timing (snd (calls now_at T ks c')).
Proof.
  induction ks as [|k ks IH]; intros c c' H.
  - split; [reflexivity | exact H].
  - rewrite !calls_cons. cbn [fst snd].
    destruct (call_timing k c c' H) as (Hr & Ht).
    destruct (IH _ _ Ht) as (Hrs & Hts).
    split; [now rewrite Hr, Hrs | exact Hts].
Qed.

Lemma calls_silent ks : forall c,
  m_activity (this c) = None ->
  m_activity (this (snd (calls now_at T ks c))) = None /\
  written (env (snd (calls now_at T ks c))) = written (env c).
Proof.
  induction ks as [|k ks IH]; intros c A.
  - split; [exact A | reflexivity].
  - rewrite calls_cons. cbn [snd].
    destruct (call_silent k c A) as (A1 & W1).
    destruct (IH _ A1) as (A2 & W2).
    split; [exact A2 | now rewrite W2].
Qed.

Lemma start_body_eq b c :
  snd (start_body now_at T b c) =
  if b then
    snd (Start now_at T
           (match m_activity (this c) with
            | Some _ => default_start
            | None => None
            end) c)
  else c.
Proof.
  unfold start_body, when. destruct b; [|reflexivity].
  unfold bind, get, ret. destruct (m_activity (this c)).
  - now destruct (Start _ _ _ _).
  - now destruct (Start _ _ _ _).
Qed.

Lemma dtor_timing c c' :
  timing c = timing c' ->
  timing (snd (basic_stopwatch_dtor now_at T c)) =
  timing (snd (basic_stopwatch_dtor now_at T c')).
Proof.
  intros H. rewrite !dtor_eq, (timing_started _ _ H).
  destruct (started c'); cbn [snd]; [|exact H].
  now apply Stop_timing.
Qed.

Lemma dtor_silent c :
  m_activity (this c) = None ->
  written (env (snd (basic_stopwatch_dtor now_at T c))) = written (env c).
Proof.
  intros A. rewrite dtor_eq. destruct (started c) eqn:R; [|reflexivity].
  cbn [snd]. rewrite Stop_written, R, report_no_label by exact A.
  apply List.app_nil_r.
Qed.

Lemma normalize_empty a : nonempty a = false -> normalize a = None.
Proof. unfold normalize. now intros ->. Qed.

Lemma construct_timing a a' log log' b w :
  timing (construct a log (start_body now_at T b) w) =
  timing (construct a' log' (start_body now_at T b) w).
Proof.
  unfold construct. rewrite !start_body_eq.
  destruct b; [|reflexivity].
  now apply Start_timing.
Qed.

Lemma construct_silent log b w :
  m_activity (this (construct None log (start_body now_at T b) w)) = None /\
  written (env (construct None log (start_body now_at T b) w)) = written w.
Proof.
  unfold construct. rewrite start_body_eq.
  destruct b; [|split; reflexivity].
  cbn [this m_activity].
  rewrite (proj1 (Start_label now_at T None _)), Start_written.
  rewrite !report_no_label by reflexivity.
  split; [reflexivity|].
  destruct (started _); apply List.app_nil_r.
Qed.

End Silent.

(** The constructor without stream argument is the one with [std::cout]. *)
Lemma basic_stopwatch_activity_is_log_cout now_at T activity start_now w :
  basic_stopwatch_activity now_at T activity start_now w =
  basic_stopwatch_log now_at T cout activity start_now w.
Proof. reflexivity. Qed.

(** C3: a timer constructed with an empty or absent activity label writes
    nothing: not in its constructor, not in any sequence [ks] of Show, Start
    and Stop calls with any event names, not in its destructor.  The values
    the calls return, the clock mark (hence the Running/Stopped state), the
    lap and the clock readings consumed are those of a timer constructed
    with any other label and used in the same way. *)
Theorem unlabelled_timer_is_silent
    (now_at : Clock -> nat -> time_point) (T : TimerBaseChrono)
    (log : ostream) (activity label : c_string) (start_now : bool)
    (ks : list Call) (w : World) :
  nonempty activity = false ->
  let c0 := basic_stopwatch_log now_at T log activity start_now w in
  let c0' := basic_stopwatch_log now_at T log label start_now w in
  let r := calls now_at T ks c0 in
  let r' := calls now_at T ks c0' in
  written (env c0) = written w /\
  written (env (snd r)) = written w /\
  written (env (snd (basic_stopwatch_dtor now_at T (snd r)))) = written w /\
  fst r = fst r' /\
  m_start (this (snd r)) = m_start (this (snd r')) /\
  m_lap (this (snd r)) = m_lap (this (snd r')) /\
  fst (IsStarted (snd r)) = fst (IsStarted (snd r')) /\
  fst (LapGet (snd r)) = fst (LapGet (snd r')) /\
  timing (snd (basic_stopwatch_dtor now_at T (snd r))) =
    timing (snd (basic_stopwatch_dtor now_at T (snd r'))).
Proof.
  intros E c0 c0' r r'.
  assert (S0 : m_activity (this c0) = None /\ written (env c0) = written w).
  { subst c0. unfold basic_stopwatch_log. rewrite normalize_empty by exact E.
    apply construct_silent. }
  destruct S0 as (A0 & W0).
  destruct (calls_silent now_at T ks c0 A0) as (A1 & W1).
  assert (T0 : timing c0 = timing c0') by apply construct_timing.
  destruct (calls_timing now_at T ks c0 c0' T0) as (Hr & Ht).
  fold r in A1, W1, Hr, Ht. fold r' in Hr, Ht.
  assert (Ht' := Ht). unfold timing in Ht'. injection Ht' as Hs Hl _.
  split; [exact W0|].
  split; [now rewrite W1|].
  split; [now rewrite dtor_silent, W1 by exact A1|].
  split; [exact Hr|].
  split; [exact Hs|].
  split; [exact Hl|].
  split; [rewrite !IsStarted_eq; cbn [fst]; unfold started; now rewrite Hs|].
  split; [exact Hl|].
  now apply dtor_timing.
Qed.

Lemma unlabelled_timer_is_silent_witness :
  nonempty (Some "") = false /\
  let ks := [CallShow (Some "peek"); CallStart (Some "again");
             CallStop (Some "done")] in
  written (env (snd (calls test_clock Stopwatch ks
                       (basic_stopwatch_log test_clock Stopwatch cout (Some "")
                          true world0)))) = [] /\
  fst (calls test_clock Stopwatch ks
         (basic_stopwatch_log test_clock Stopwatch cout (Some "") true world0)) =
  fst (calls test_clock Stopwatch ks
         (basic_stopwatch_log test_clock Stopwatch cout (Some "Work") true
            world0)).
Proof.
  split; [reflexivity|]. intros ks.
  pose proof (unlabelled_timer_is_silent test_clock Stopwatch cout (Some "")
                (Some "Work") true ks world0 eq_refl)
    as (_ & W & _ & V & _).
  split; [exact W | exact V].
Defined.

(** ** Construction *)

Lemma constructor_fields
    (now_at : Clock -> nat -> time_point) (T : TimerBaseChrono)
    (log : ostream) (activity : c_string) (start_now : bool) (w : World) :
  let c := basic_stopwatch_log now_at T log activity start_now w in
  m_activity (this c) = (if nonempty activity then activity else None) /\
  m_log (this c) = log /\
  m_lap (this c) = 0 /\
  m_start (this c) =
    (if start_now then now_at (clock_ T) (reads w) else time_point_min) /\
  reads (env c) = (if start_now then S (reads w) else reads w) /\
  written (env c) =
    (written w ++
     if start_now && nonempty activity
     then [(log, (chars activity ++ ": start")%string)]
     else [])%list.
Proof.
  unfold basic_stopwatch_log, construct, normalize.
  rewrite start_body_eq.
  destruct start_now; cbn [andb].
  - rewrite Start_eq.
    replace (started _) with false by (now destruct (nonempty activity)).
    unfold report, after, with_start. cbn [snd this env m_activity m_log m_lap
      m_start reads written Nat.add].
    destruct activity as [[|ch s]|]; cbn [nonempty chars default_start];
      rewrite ?List.app_nil_r; repeat split.
  - cbn [snd this env m_activity m_log m_lap m_start reads written].
    rewrite List.app_nil_r. repeat split.
Qed.

(** What a constructor leaves behind: the label is the argument, or absent
    when the argument is null or empty; the lap is 0; with [start_now] the
    clock is read once and that reading is the mark, and a labelled timer
    writes "<activity>: start" to its stream; without [start_now] nothing is
    read or written and the timer is not marked. *)
Theorem constructor_result
    (now_at : Clock -> nat -> time_point) (T : TimerBaseChrono)
    (log : ostream) (activity : c_string) (start_now : bool) (w : World) :
  let c := basic_stopwatch_log now_at T log activity start_now w in
  m_activity (this c) = (if nonempty activity then activity else None) /\
  m_log (this c) = log /\
  m_lap (this c) = 0 /\
  m_start (this c) =
    (if start_now then now_at (clock_ T) (reads w) else time_point_min) /\
  reads (env c) = (if start_now then S (reads w) else reads w) /\
  written (env c) =
    (written w ++
     if start_now && nonempty activity
     then [(log, (chars activity ++ ": start")%string)]
     else [])%list.
Proof. apply constructor_fields. Qed.

(** The constructor taking only the flag builds the timer that the
    constructor taking a label builds for the label "Stopwatch". *)
Theorem bool_constructor_is_Stopwatch_label
    (now_at : Clock -> nat -> time_point) (T : TimerBaseChrono)
    (start_now : bool) (w : World) :
  basic_stopwatch_bool now_at T start_now w =
  basic_stopwatch_activity now_at T (Some "Stopwatch") start_now w.
Proof.
  unfold basic_stopwatch_bool, basic_stopwatch_activity, construct, start_body.
  destruct start_now; reflexivity.
Qed.

(** ** Invariants of a timer's lifetime *)

Section Lifetime.

Variable now_at : Clock -> nat -> time_point.
Variable T : TimerBaseChrono.

Lemma call_label k c :
  m_activity (this (snd (call now_at T k c))) = m_activity (this c) /\
  m_log (this (snd (call now_at T k c))) = m_log (this c).
Proof.
  destruct k; cbn [call];
    [apply Show_label | apply Start_label | apply Stop_label].
Qed.

Lemma calls_label ks : forall c,
  m_activity (this (snd (calls now_at T ks c))) = m_activity (this c) /\
  m_log (this (snd (calls now_at T ks c))) = m_log (this c).
Proof.
  induction ks as [|k ks IH]; intros c; [now split|].
  rewrite calls_cons. cbn [snd].
  destruct (IH (snd (call now_at T k c))) as (A & L).
  destruct (call_label k c) as (A0 & L0).
  split; congruence.
Qed.

Lemma dtor_label c :
  m_activity (this (snd (basic_stopwatch_dtor now_at T c))) = m_activity (this c) /\
  m_log (this (snd (basic_stopwatch_dtor now_at T c))) = m_log (this c).
Proof.
  rewrite dtor_eq. destruct (started c); cbn [snd]; [apply Stop_label | now split].
Qed.

Lemma call_result k c :
  fst (call now_at T k c) = m_lap (this (snd (call now_at T k c))) /\
  (is_ulong (m_lap (this c)) -> is_ulong (fst (call now_at T k c))).
Proof.
  pose proof (elapsed_range now_at T c) as B.
  destruct k as [e|e|e]; cbn [call];
    [rewrite Show_eq | rewrite Start_eq | rewrite Stop_eq];
    destruct (started c); cbv zeta; cbn [fst snd this m_lap with_lap with_start];
    split; try reflexivity; intros H; try exact H; exact B.
Qed.

Lemma calls_results ks : forall c,
  is_ulong (m_lap (this c)) ->
  Forall is_ulong (fst (calls now_at T ks c)) /\
  is_ulong (m_lap (this (snd (calls now_at T ks c)))).
Proof.
  induction ks as [|k ks IH]; intros c H.
  - split; [constructor | exact H].
  - rewrite calls_cons. cbn [fst snd].
    destruct (call_result k c) as (E & R). specialize (R H).
    destruct (IH (snd (call now_at T k c))) as (F & L).
    { now rewrite <- E. }
    split; [constructor; assumption | exact L].
Qed.

(** What a call appends to the output. *)
Lemma call_appends k c :
  exists ls,
    written (env (snd (call now_at T k c))) = (written (env c) ++ ls)%list /\
    (List.length ls <= 1)%nat /\
    Forall (line_of (this c)) ls.
Proof.
  assert (R : forall e text,
            (List.length (report c e (fun a => (a ++ ": " ++ text)%string)) <= 1)%nat /\
            Forall (line_of (this c))
              (report c e (fun a => (a ++ ": " ++ text)%string))).
  { intros e text. unfold report.
    destruct (nonempty e); [|split; [cbn; lia | constructor]].
    destruct (m_activity (this c)) as [a|] eqn:A;
      [|split; [cbn; lia | constructor]].
    split; [cbn; lia|]. constructor; [|constructor].
    split; [reflexivity|]. exists a, text. now split. }
  destruct k as [e|e|e]; cbn [call].
  - rewrite Show_written. eexists; split; [reflexivity|].
    destruct (started c); [apply R|].
    destruct (m_activity (this c)) as [a|] eqn:A;
      [|split; [cbn; lia | constructor]].
    split; [cbn; lia|]. constructor; [|constructor].
    split; [reflexivity|]. exists a, "not started". now split.
  - rewrite Start_written. eexists; split; [reflexivity|].
    destruct (started c); apply R.
  - rewrite Stop_written. eexists; split; [reflexivity|].
    destruct (started c); [apply R | split; [cbn; lia | constructor]].
Qed.

Lemma line_of_same o o' p :
  m_activity o = m_activity o' -> m_log o = m_log o' ->
  line_of o p -> line_of o' p.
Proof. unfold line_of. intros -> ->. tauto. Qed.

Lemma calls_append ks : forall c,
  exists ls,
    written (env (snd (calls now_at T ks c))) = (written (env c) ++ ls)%list /\
    (List.length ls <= List.length ks)%nat /\
    Forall (line_of (this c)) ls.
Proof.
  induction ks as [|k ks IH]; intros c.
  - exists []. cbn. rewrite List.app_nil_r. repeat split; [lia | constructor].
  - rewrite calls_cons. cbn [snd].
    destruct (call_appends k c) as (l1 & W1 & N1 & F1).
    destruct (IH (snd (call now_at T k c))) as (l2 & W2 & N2 & F2).
    destruct (call_label k c) as (A & L).
    exists (l1 ++ l2)%list. split; [|split].
    + now rewrite W2, W1, List.app_assoc.
    + rewrite List.length_app. cbn [List.length]. lia.
    + apply Forall_app. split; [exact F1|].
      eapply Forall_impl; [|exact F2].
      intros p. now apply line_of_same.
Qed.

Lemma dtor_appends c :
  exists ls,
    written (env (snd (basic_stopwatch_dtor now_at T c))) =
      (written (env c) ++ ls)%list /\
    (List.length ls <= 1)%nat /\
    Forall (line_of (this c)) ls.
Proof.
  rewrite dtor_eq. destruct (started c); cbn [snd].
  - apply (call_appends (CallStop _) c).
  - exists []. rewrite List.app_nil_r. repeat split; [cbn; lia | constructor].
Qed.

End Lifetime.

(** The label of a constructed timer is never the empty string (it is absent
    instead), and neither the label nor the stream changes during the
    timer's life: not by any sequence of Show, Start and Stop calls, not by
    the destructor. *)
Theorem label_and_stream_are_fixed
    (now_at : Clock -> nat -> time_point) (T : TimerBaseChrono)
    (log : ostream) (activity : c_string) (start_now : bool)
    (ks : list Call) (w : World) :
  let c0 := basic_stopwatch_log now_at T log activity start_now w in
  let c1 := snd (calls now_at T ks c0) in
  let c2 := snd (basic_stopwatch_dtor now_at T c1) in
  m_activity (this c0) <> Some EmptyString /\
  m_activity (this c1) = m_activity (this c0) /\
  m_activity (this c2) = m_activity (this c0) /\
  m_log (this c1) = log /\
  m_log (this c2) = log.
Proof.
  intros c0 c1 c2.
  destruct (constructor_fields now_at T log activity start_now w)
    as (A0 & L0 & _).
  fold c0 in A0, L0.
  destruct (calls_label now_at T ks c0) as (A1 & L1). fold c1 in A1, L1.
  destruct (dtor_label now_at T c1) as (A2 & L2). fold c2 in A2, L2.
  split; [|repeat split; congruence].
  rewrite A0. destruct activity as [[|ch s]|]; cbn [nonempty]; discriminate.
Qed.

(** Every call returns the lap it leaves in the object: [LapGet()] right
    after [Show], [Start] or [Stop] gives the value that call returned, in
    either state. *)
Theorem LapGet_after_call_is_its_result
    (now_at : Clock -> nat -> time_point) (T : TimerBaseChrono)
    (e : c_string) (c : Config) :
  fst (LapGet (snd (Show now_at T e c))) = fst (Show now_at T e c) /\
  fst (LapGet (snd (Start now_at T e c))) = fst (Start now_at T e c) /\
  fst (LapGet (snd (Stop now_at T e c))) = fst (Stop now_at T e c).
Proof.
  unfold LapGet, get. cbn [fst].
  pose proof (call_result now_at T (CallShow e) c) as (A & _).
  pose proof (call_result now_at T (CallStart e) c) as (B & _).
  pose proof (call_result now_at T (CallStop e) c) as (C & _).
  cbn [call] in A, B, C. auto.
Qed.

(** The lap of a constructed timer and every value returned during its life
    are values of [unsigned long]: at least 0 and below 2^64, whatever the
    clock reads (also when it is set back). *)
Theorem laps_are_unsigned_long
    (now_at : Clock -> nat -> time_point) (T : TimerBaseChrono)
    (log : ostream) (activity : c_string) (start_now : bool)
    (ks : list Call) (w : World) :
  let r := calls now_at T ks
             (basic_stopwatch_log now_at T log activity start_now w) in
  Forall is_ulong (fst r) /\
  is_ulong (m_lap (this (snd r))) /\
  is_ulong (fst (LapGet (snd r))).
Proof.
  intros r.
  destruct (constructor_fields now_at T log activity start_now w)
    as (_ & _ & Z0 & _).
  destruct (calls_results now_at T ks
              (basic_stopwatch_log now_at T log activity start_now w))
    as (F & L).
  { rewrite Z0. unfold is_ulong, ulong_bits. lia. }
  repeat split; solve [exact F | apply L].
Qed.

(** A call never touches what was written before and appends at most one
    line; that line goes to the timer's own stream and begins with the
    timer's label, a colon and a space. *)
Theorem call_appends_at_most_one_line
    (now_at : Clock -> nat -> time_point) (T : TimerBaseChrono)
    (k : Call) (c : Config) :
  exists ls,
    written (env (snd (call now_at T k c))) = (written (env c) ++ ls)%list /\
    (List.length ls <= 1)%nat /\
    Forall (line_of (this c)) ls.
Proof. apply call_appends. Qed.

(** Over its whole life (constructor, any calls, destructor) a timer leaves
    the earlier output in place and adds at most one line per call plus one
    for the constructor and one for the destructor, all of them to the
    stream given at construction and all beginning with the label given at
    construction. *)
Theorem lifetime_output
    (now_at : Clock -> nat -> time_point) (T : TimerBaseChrono)
    (log : ostream) (activity : c_string) (start_now : bool)
    (ks : list Call) (w : World) :
  let c0 := basic_stopwatch_log now_at T log activity start_now w in
  let c1 := snd (calls now_at T ks c0) in
  let c2 := snd (basic_stopwatch_dtor now_at T c1) in
  exists ls,
    written (env c2) = (written w ++ ls)%list /\
    (List.length ls <= 2 + List.length ks)%nat /\
    Forall (fun p => fst p = log /\
                     exists rest, snd p = (chars activity ++ ": " ++ rest)%string)
           ls.
Proof.
  intros c0 c1 c2.
  destruct (constructor_fields now_at T log activity start_now w)
    as (A0 & L0 & _ & _ & _ & W0).
  fold c0 in A0, L0, W0.
  destruct (calls_append now_at T ks c0) as (l1 & W1 & N1 & F1).
  fold c1 in W1.
  destruct (calls_label now_at T ks c0) as (A1 & L1). fold c1 in A1, L1.
  destruct (dtor_appends now_at T c1) as (l2 & W2 & N2 & F2). fold c2 in W2.
  assert (G : forall o p,
            m_activity o = m_activity (this c0) -> m_log o = log ->
            line_of o p ->
            fst p = log /\
            exists rest, snd p = (chars activity ++ ": " ++ rest)%string).
  { intros o p Ao Lo (Hl & a & rest & Ha & Hs).
    split; [congruence|]. exists rest. rewrite Hs.
    rewrite Ao, A0 in Ha. destruct (nonempty activity); [|discriminate].
    now rewrite Ha. }
  set (l0 := if start_now && nonempty activity
             then [(log, (chars activity ++ ": start")%string)] else []) in W0.
  exists (l0 ++ l1 ++ l2)%list. split; [|split].
  - rewrite W2, W1, W0. now rewrite <- !List.app_assoc.
  - rewrite !List.length_app.
    assert (List.length l0 <= 1)%nat
      by (subst l0; destruct (start_now && nonempty activity); cbn; lia).
    lia.
  - apply Forall_app. split; [|apply Forall_app; split].
    + subst l0. destruct (start_now && nonempty activity); constructor;
        [|constructor].
      split; [reflexivity|]. now exists "start".
    + eapply Forall_impl; [|exact F1]. intros p. now apply G.
    + eapply Forall_impl; [|exact F2]. intros p. apply G; congruence.
Qed.

(** ** Sequences of calls *)

Lemma elapsed_forward now_at T c :
  0 <= now_at (clock_ T) (reads (env c)) - m_start (this c) < 2 ^ 63 ->
  elapsed now_at T c =
  (now_at (clock_ T) (reads (env c)) - m_start (this c))
    / periods_per_unit (resolution T).
Proof.
  intros H. unfold elapsed. rewrite wrap_i64_small by lia.
  destruct (duration_cast_nonneg (resolution T)
              (now_at (clock_ T) (reads (env c)) - m_start (this c)))
    as (E & B & _); [lia|].
  rewrite to_ulong_small by lia. exact E.
Qed.

(** [Start] on a Stopped timer does not clear the lap: it returns the lap of
    the last measurement and leaves it in the object.  It reads the clock
    once, takes the reading as mark, and writes "<activity>: <event>" when
    the label is present and the event name is not empty. *)
Theorem Start_stopped_keeps_lap
    (now_at : Clock -> nat -> time_point) (T : TimerBaseChrono)
    (e : c_string) (c : Config) :
  m_start (this c) = time_point_min ->
  fst (Start now_at T e c) = m_lap (this c) /\
  m_lap (this (snd (Start now_at T e c))) = m_lap (this c) /\
  m_start (this (snd (Start now_at T e c))) =
    now_at (clock_ T) (reads (env c)) /\
  reads (env (snd (Start now_at T e c))) = S (reads (env c)) /\
  written (env (snd (Start now_at T e c))) =
    (written (env c) ++
     if nonempty e then
       match m_activity (this c) with
       | Some a => [(m_log (this c), (a ++ ": " ++ chars e)%string)]
       | None => []
       end
     else [])%list.
Proof.
  intros H. apply started_false_iff in H.
  rewrite Start_eq, H. repeat split.
Qed.

Lemma Start_stopped_keeps_lap_witness :
  m_start (this stopped_after_lap) = time_point_min /\
  fst (Start test_clock Stopwatch (Some "again") stopped_after_lap) = 50 /\
  written (env (snd (Start test_clock Stopwatch (Some "again")
                       stopped_after_lap))) =
    [(cout, "Work: start"); (cout, "Work: done 50mS"); (cout, "Work: again")].
Proof.
  split; [reflexivity|].
  destruct (Start_stopped_keeps_lap test_clock Stopwatch (Some "again")
              stopped_after_lap eq_refl) as (R & _ & _ & _ & W).
  split; [exact R | exact W].
Defined.

(** After [Stop], in whichever state it was called, the timer is Stopped:
    a second [Stop] returns the same lap and changes nothing, [GetMs]
    returns 0 without reading the clock, and the destructor does nothing. *)
Theorem after_Stop_nothing_more_happens
    (now_at : Clock -> nat -> time_point) (T : TimerBaseChrono)
    (e e' : c_string) (c : Config) :
  let c1 := snd (Stop now_at T e c) in
  fst (IsStarted c1) = false /\
  Stop now_at T e' c1 = (fst (Stop now_at T e c), c1) /\
  BaseTimer_GetMs now_at T c1 = (0, c1) /\
  basic_stopwatch_dtor now_at T c1 = (tt, c1).
Proof.
  intros c1.
  assert (R : started c1 = false).
  { subst c1. rewrite Stop_eq. now destruct (started c). }
  assert (L : m_lap (this c1) = fst (Stop now_at T e c)).
  { subst c1. rewrite Stop_eq. now destruct (started c). }
  assert (S1 : with_start (this c1) time_point_min = this c1).
  { subst c1. rewrite Stop_eq. now destruct (started c). }
  rewrite IsStarted_eq, Stop_eq, GetMs_eq, dtor_eq, R, S1, L.
  destruct c1 as [o w]. repeat split.
Qed.

(** [Show] does not move the mark, so with a clock that does not go back a
    later [Show] or [Stop] never reports less than an earlier [Show]. *)
Theorem later_measurement_is_not_smaller
    (now_at : Clock -> nat -> time_point) (T : TimerBaseChrono)
    (e e' : c_string) (c : Config) :
  m_start (this c) <> time_point_min ->
  m_start (this c) <= now_at (clock_ T) (reads (env c)) ->
  now_at (clock_ T) (reads (env c)) <= now_at (clock_ T) (S (reads (env c))) ->
  now_at (clock_ T) (S (reads (env c))) - m_start (this c) < 2 ^ 63 ->
  m_start (this (snd (Show now_at T e c))) = m_start (this c) /\
  fst (Show now_at T e c) <= fst (Show now_at T e' (snd (Show now_at T e c))) /\
  fst (Show now_at T e c) <= fst (Stop now_at T e' (snd (Show now_at T e c))).
Proof.
  intros R H1 H2 H3. apply started_true_iff in R.
  pose proof (periods_per_unit_pos (resolution T)) as Hu.
  set (c1 := snd (Show now_at T e c)).
  assert (E0 : fst (Show now_at T e c) = elapsed now_at T c)
    by (now rewrite Show_eq, R).
  assert (M1 : m_start (this c1) = m_start (this c))
    by (subst c1; now rewrite Show_eq, R).
  assert (N1 : reads (env c1) = S (reads (env c)))
    by (subst c1; now rewrite Show_eq, R).
  assert (R1 : started c1 = true) by (unfold started; now rewrite M1).
  assert (E1 : elapsed now_at T c1 =
               (now_at (clock_ T) (S (reads (env c))) - m_start (this c))
                 / periods_per_unit (resolution T)).
  { rewrite elapsed_forward; rewrite N1, M1; [reflexivity | lia]. }
  split; [exact M1|].
  rewrite E0, elapsed_forward by lia.
  rewrite Show_eq, Stop_eq, R1. cbv zeta. cbn [fst]. rewrite E1.
  split; apply Z.div_le_mono; lia.
Qed.

Lemma later_measurement_is_not_smaller_witness :
  fst (Show test_clock Stopwatch (Some "a") running_work) <=
  fst (Stop test_clock Stopwatch (Some "b")
         (snd (Show test_clock Stopwatch (Some "a") running_work))).
Proof.
  refine (proj2 (proj2 (later_measurement_is_not_smaller test_clock Stopwatch
            (Some "a") (Some "b") running_work _ _ _ _)));
    vm_compute; discriminate || reflexivity.
Defined.

(** [Start] leaves the timer Running unless the clock reading it takes as
    mark is [time_point::min()], the value that stands for "no mark": with
    that reading the timer is Stopped right after [Start]. *)
Theorem Start_marks_unless_reading_is_min
    (now_at : Clock -> nat -> time_point) (T : TimerBaseChrono)
    (e : c_string) (c : Config) :
  fst (IsStarted (snd (Start now_at T e c))) =
  negb (Z.eqb (now_at (clock_ T)
                 (if fst (IsStarted c) then S (reads (env c))
                  else reads (env c)))
          time_point_min).
Proof.
  rewrite !IsStarted_eq, Start_eq. cbn [fst].
  destruct (started c); reflexivity.
Qed.

(** For the same clock readings the lap of a [Stopwatch] is the lap of a
    [Stopwatchmicro] divided by 1000, rounded down (the clock not being
    before the mark). *)
Theorem Stopwatch_lap_is_Stopwatchmicro_lap_div_1000
    (now_at : Clock -> nat -> time_point) (e : c_string) (c : Config) :
  m_start (this c) <> time_point_min ->
  0 <= now_at system_clock (reads (env c)) - m_start (this c) < 2 ^ 63 ->
  fst (BaseTimer_GetMs now_at Stopwatch c) =
    fst (BaseTimer_GetMs now_at Stopwatchmicro c) / 1000 /\
  fst (Show now_at Stopwatch e c) = fst (Show now_at Stopwatchmicro e c) / 1000 /\
  fst (Stop now_at Stopwatch e c) = fst (Stop now_at Stopwatchmicro e c) / 1000.
Proof.
  intros R H. apply started_true_iff in R.
  rewrite !GetMs_eq, !Show_eq, !Stop_eq, R. cbv zeta. cbn [fst].
  rewrite (elapsed_forward now_at Stopwatch), (elapsed_forward now_at Stopwatchmicro)
    by exact H.
  cbn [Stopwatch Stopwatchmicro resolution clock_ periods_per_unit
       high_resolution_clock].
  rewrite Z.div_div by lia. repeat split.
Qed.

Lemma Stopwatch_lap_is_Stopwatchmicro_lap_div_1000_witness :
  fst (Show test_clock Stopwatch (Some "a") running_work) =
  fst (Show test_clock Stopwatchmicro (Some "a") running_work) / 1000.
Proof.
  refine (proj1 (proj2 (Stopwatch_lap_is_Stopwatchmicro_lap_div_1000 test_clock
            (Some "a") running_work _ _))).
  - vm_compute. discriminate.
  - vm_compute. split; [discriminate | reflexivity].
Defined.

(** How often a call reads the clock: [Show] and [Stop] once on a Running
    timer and never on a Stopped one, [Start] twice on a Running timer and
    once on a Stopped one, the destructor like [Stop]; [IsStarted] and
    [LapGet] change nothing at all. *)
Theorem clock_readings_per_call
    (now_at : Clock -> nat -> time_point) (T : TimerBaseChrono)
    (e : c_string) (c : Config) :
  reads (env (snd (Show now_at T e c))) =
    ((if fst (IsStarted c) then 1 else 0) + reads (env c))%nat /\
  reads (env (snd (Stop now_at T e c))) =
    ((if fst (IsStarted c) then 1 else 0) + reads (env c))%nat /\
  reads (env (snd (Start now_at T e c))) =
    ((if fst (IsStarted c) then 2 else 1) + reads (env c))%nat /\
  reads (env (snd (basic_stopwatch_dtor now_at T c))) =
    ((if fst (IsStarted c) then 1 else 0) + reads (env c))%nat /\
  snd (IsStarted c) = c /\
  snd (LapGet c) = c.
Proof.
  rewrite IsStarted_eq, dtor_eq, Show_eq, Start_eq. cbn [fst].
  destruct (started c) eqn:R; cbn [snd]; rewrite !Stop_eq, R; repeat split.
Qed.

(** After [Start] on a Running timer the next measurement counts from the
    reading taken at the restart, not from the earlier mark. *)
Theorem restart_measures_from_new_mark
    (now_at : Clock -> nat -> time_point) (T : TimerBaseChrono)
    (e e' : c_string) (c : Config) :
  m_start (this c) <> time_point_min ->
  now_at (clock_ T) (S (reads (env c))) <> time_point_min ->
  0 <= now_at (clock_ T) (S (S (reads (env c))))
       - now_at (clock_ T) (S (reads (env c))) < 2 ^ 63 ->
  fst (Show now_at T e' (snd (Start now_at T e c))) =
  (now_at (clock_ T) (S (S (reads (env c))))
   - now_at (clock_ T) (S (reads (env c))))
    / periods_per_unit (resolution T).
Proof.
  intros R N H. apply started_true_iff in R.
  set (c1 := snd (Start now_at T e c)).
  assert (M1 : m_start (this c1) = now_at (clock_ T) (S (reads (env c))))
    by (subst c1; now rewrite Start_eq, R).
  assert (N1 : reads (env c1) = S (S (reads (env c))))
    by (subst c1; now rewrite Start_eq, R).
  assert (R1 : started c1 = true).
  { unfold started. rewrite M1. now apply negb_true_iff, Z.eqb_neq. }
  rewrite Show_eq, R1. cbv zeta. cbn [fst].
  rewrite elapsed_forward; rewrite N1, M1; [reflexivity | exact H].
Qed.

Lemma restart_measures_from_new_mark_witness :
  fst (Show test_clock Stopwatch (Some "b")
         (snd (Start test_clock Stopwatch (Some "a") running_work))) = 50.
Proof.
  etransitivity;
    [ refine (restart_measures_from_new_mark test_clock Stopwatch (Some "a")
                (Some "b") running_work _ _ _)
    | vm_compute; reflexivity ].
  - vm_compute. discriminate.
  - vm_compute. discriminate.
  - vm_compute. split; [discriminate | reflexivity].
Defined.

(** A timer started by its constructor and stopped measures the time
    between the two clock readings, in whole units of the resolution,
    rounded down; [LapGet] then reports that value, and the explicit [Stop]
    leaves nothing for the destructor to do. *)
Theorem constructed_timer_measures
    (now_at : Clock -> nat -> time_point) (T : TimerBaseChrono)
    (log : ostream) (activity e : c_string) (w : World) :
  now_at (clock_ T) (reads w) <> time_point_min ->
  0 <= now_at (clock_ T) (S (reads w)) - now_at (clock_ T) (reads w) < 2 ^ 63 ->
  let c0 := basic_stopwatch_log now_at T log activity true w in
  let c1 := snd (Stop now_at T e c0) in
  fst (Stop now_at T e c0) =
    (now_at (clock_ T) (S (reads w)) - now_at (clock_ T) (reads w))
      / periods_per_unit (resolution T) /\
  fst (LapGet c1) = fst (Stop now_at T e c0) /\
  basic_stopwatch_dtor now_at T c1 = (tt, c1).
Proof.
  intros N H c0 c1.
  destruct (constructor_fields now_at T log activity true w)
    as (_ & _ & _ & M0 & N0 & _).
  fold c0 in M0, N0.
  assert (R0 : started c0 = true).
  { unfold started. rewrite M0. now apply negb_true_iff, Z.eqb_neq. }
  assert (E : fst (Stop now_at T e c0) = elapsed now_at T c0)
    by (now rewrite Stop_eq, R0).
  assert (R1 : started c1 = false)
    by (subst c1; now rewrite Stop_eq, R0).
  split; [|split].
  - rewrite E, elapsed_forward; rewrite N0, M0; [reflexivity | exact H].
  - subst c1. unfold LapGet, get. cbn [fst]. now rewrite Stop_eq, R0.
  - now rewrite dtor_eq, R1.
Qed.

Lemma constructed_timer_measures_witness :
  fst (Stop test_clock Stopwatchmicro (Some "done")
         (basic_stopwatch_log test_clock Stopwatchmicro (ostream_ref 7)
            (Some "Work") true world0)) = 50250.
Proof.
  etransitivity;
    [ refine (proj1 (constructed_timer_measures test_clock Stopwatchmicro
                (ostream_ref 7) (Some "Work") (Some "done") world0 _ _))
    | vm_compute; reflexivity ].
  - vm_compute. discriminate.
  - vm_compute. split; [discriminate | reflexivity].
Defined.

(** ** The base timer on its own *)

(** [TimerBaseChrono::Start] overwrites whatever mark there was: [GetMs]
    right after it counts from the reading [Start] took, in whole units
    rounded down; after [Clear] the timer is not started and [GetMs]
    returns 0 without reading the clock. *)
Theorem BaseTimer_Start_GetMs_Clear
    (now_at : Clock -> nat -> time_point) (T : TimerBaseChrono) (c : Config) :
  now_at (clock_ T) (reads (env c)) <> time_point_min ->
  0 <= now_at (clock_ T) (S (reads (env c)))
       - now_at (clock_ T) (reads (env c)) < 2 ^ 63 ->
  let c1 := snd (BaseTimer_Start now_at T c) in
  let c2 := snd (BaseTimer_Clear c1) in
  fst (BaseTimer_IsStarted c1) = true /\
  fst (BaseTimer_GetMs now_at T c1) =
    (now_at (clock_ T) (S (reads (env c))) - now_at (clock_ T) (reads (env c)))
      / periods_per_unit (resolution T) /\
  fst (BaseTimer_IsStarted c2) = false /\
  BaseTimer_GetMs now_at T c2 = (0, c2).
Proof.
  intros N H c1 c2.
  assert (M1 : m_start (this c1) = now_at (clock_ T) (reads (env c)))
    by reflexivity.
  assert (N1 : reads (env c1) = S (reads (env c))) by reflexivity.
  assert (R1 : started c1 = true).
  { unfold started. rewrite M1. now apply negb_true_iff, Z.eqb_neq. }
  assert (R2 : started c2 = false) by reflexivity.
  fold IsStarted. rewrite !IsStarted_eq, !GetMs_eq, R1, R2. cbn [fst].
  repeat split.
  rewrite elapsed_forward; rewrite N1, M1; [reflexivity | exact H].
Qed.

Lemma BaseTimer_Start_GetMs_Clear_witness :
  fst (BaseTimer_GetMs test_clock Stopwatch
         (snd (BaseTimer_Start test_clock Stopwatch running_work))) = 50.
Proof.
  etransitivity;
    [ refine (proj1 (proj2 (BaseTimer_Start_GetMs_Clear test_clock Stopwatch
                running_work _ _)))
    | vm_compute; reflexivity ].
  - vm_compute. discriminate.
  - vm_compute. split; [discriminate | reflexivity].
Defined.

(** [GetMs] truncates toward zero: whenever the clock reading is less than
    one unit of the resolution away from the mark, before it or after it,
    the result is 0. *)
Theorem GetMs_within_one_unit_is_zero
    (now_at : Clock -> nat -> time_point) (T : TimerBaseChrono) (c : Config) :
  - periods_per_unit (resolution T)
    < now_at (clock_ T) (reads (env c)) - m_start (this c)
    < periods_per_unit (resolution T) ->
  fst (BaseTimer_GetMs now_at T c) = 0.
Proof.
  intros H. rewrite GetMs_eq.
  destruct (started c); [|reflexivity]. cbn [fst]. unfold elapsed.
  assert (U : periods_per_unit (resolution T) <= 1000000)
    by (destruct (resolution T); cbn; lia).
  rewrite wrap_i64_small by lia.
  unfold duration_cast.
  assert (Q : Z.quot (now_at (clock_ T) (reads (env c)) - m_start (this c))
                (periods_per_unit (resolution T)) = 0)
    by (apply Z.quot_small_iff; lia).
  rewrite Q. reflexivity.
Qed.

Lemma GetMs_within_one_unit_is_zero_witness :
  fst (BaseTimer_GetMs (slipping_clock (-999999)) Stopwatch
         (slipping_work (-999999))) = 0.
Proof.
  apply (GetMs_within_one_unit_is_zero (slipping_clock (-999999)) Stopwatch
           (slipping_work (-999999))).
  vm_compute. split; reflexivity.
Defined.
